(** * AutoKPI: schema inference and the KPI rule engine

    A shallow embedding of [autokpi/schema_inference.py],
    [autokpi/utils.py] ([detect_column_pattern]), [autokpi/kpi_rules.py]
    and the anomaly rule of [autokpi/creative_kpis.py], followed by the
    properties of the specification that concern them.

    Conventions of the model.
    - Python [str] is [string]; [lower], [title] and the regular
      expressions act on ASCII letters (column labels are ASCII).
    - A Python [float] is an exact rational, extended with NaN and the
      two infinities where NumPy produces them ([npfloat]).
    - A pandas [Series] carries its storage type in its constructor.
    - An exception is a value: functions that can raise return [Exc A].
    - [print] appends a line to the output returned with the result. *)

From Stdlib Require Import ZArith QArith Qround Qpower String Ascii List Lia Lqa.
From stdpp Require Import base decidable option list gmap strings pretty.

Local Open Scope string_scope.
Local Open Scope list_scope.

(** ** Exceptions *)

Inductive ExcClass :=
  | ZeroDivisionError | KeyError | AttributeError | ValueError | TypeError
  | RuntimeError.

(** [exc_args] is what [str(e)] shows. All classes derive from
    [Exception], so [except Exception] and a bare [except] catch them. *)
Record PyExc := mkExc { exc_class : ExcClass; exc_args : string }.

Inductive Exc (A : Type) :=
  | Ok (a : A)
  | Raise (e : PyExc).
Arguments Ok {A} a.
Arguments Raise {A} e.

#[global] Instance exc_ret : MRet Exc := fun A a => Ok a.
#[global] Instance exc_bind : MBind Exc := fun A B f m =>
  match m with
  | Ok a => f a
  | Raise e => Raise e
  end.

Definition is_ok {A} (m : Exc A) : bool :=
  match m with Ok _ => true | Raise _ => false end.

(** ** Python strings *)

Module Py.

Definition is_upper (c : ascii) : bool :=
  let n := nat_of_ascii c in (65 <=? n)%nat && (n <=? 90)%nat.

Definition is_lower (c : ascii) : bool :=
  let n := nat_of_ascii c in (97 <=? n)%nat && (n <=? 122)%nat.

Definition is_digit (c : ascii) : bool :=
  let n := nat_of_ascii c in (48 <=? n)%nat && (n <=? 57)%nat.

Definition to_lower (c : ascii) : ascii :=
  if is_upper c then ascii_of_nat (nat_of_ascii c + 32) else c.

Definition to_upper (c : ascii) : ascii :=
  if is_lower c then ascii_of_nat (nat_of_ascii c - 32) else c.

(** [s.lower()] *)
Fixpoint lower (s : string) : string :=
  match s with
  | EmptyString => EmptyString
  | String c r => String (to_lower c) (lower r)
  end.

(** [s.replace(a, b)] for one-character [a] and [b]. *)
Fixpoint replace (a b : ascii) (s : string) : string :=
  match s with
  | EmptyString => EmptyString
  | String c r => String (if Ascii.eqb c a then b else c) (replace a b r)
  end.

(** [s.title()]: a cased character is upper-cased when the character
    before it is not cased, and lower-cased otherwise. *)
Fixpoint title_from (previous_is_cased : bool) (s : string) : string :=
  match s with
  | EmptyString => EmptyString
  | String c r =>
      if is_lower c || is_upper c then
        String (if previous_is_cased then to_lower c else to_upper c)
               (title_from true r)
      else String c (title_from false r)
  end.

Definition title (s : string) : string := title_from false s.

(** [sub in s] *)
Fixpoint contains (sub s : string) : bool :=
  String.prefix sub s ||
  match s with
  | EmptyString => false
  | String _ r => contains sub r
  end.

(** [s == t] *)
Definition eqb (s t : string) : bool := String.eqb s t.

(** The display form the rule engine gives a column label:
    [col.replace("_", " ").title()]. *)
Definition pretty_label (col : string) : string :=
  title (replace "_" " " col).

End Py.

(** ** Regular expressions of the pattern tables

    The four shapes the tables of [schema_inference.py] use, with the
    meaning [re.search] gives them. *)

Module Re.

Inductive pattern :=
  | Lit (w : string)        (* w        : w occurs somewhere *)
  | AtEnd (w : string)      (* w$       : w ends the string, or stands
                                          before one final newline *)
  | Whole (w : string)      (* ^w$ *)
  | Word (w : string).      (* \bw\b, for w made of word characters *)

Definition is_word_char (c : ascii) : bool :=
  Py.is_lower c || Py.is_upper c || Py.is_digit c || Ascii.eqb c "_".

Definition newline : string := String (ascii_of_nat 10) EmptyString.

(** [$] matches at the end of [s], and before a newline that ends [s]. *)
Definition at_dollar (s : string) : bool :=
  String.eqb s "" || String.eqb s newline.

Fixpoint search_at_end (w s : string) : bool :=
  (String.prefix w s &&
   at_dollar (substring (String.length w) (String.length s) s)) ||
  match s with
  | EmptyString => false
  | String _ r => search_at_end w r
  end.

Definition boundary_after (w s : string) : bool :=
  match String.get (String.length w) s with
  | None => true
  | Some c => negb (is_word_char c)
  end.

Fixpoint search_word (w : string) (previous_is_word : bool) (s : string) : bool :=
  (negb previous_is_word && String.prefix w s && boundary_after w s) ||
  match s with
  | EmptyString => false
  | String c r => search_word w (is_word_char c) r
  end.

Definition search (p : pattern) (s : string) : bool :=
  match p with
  | Lit w => Py.contains w s
  | AtEnd w => search_at_end w s
  | Whole w => String.prefix w s &&
               at_dollar (substring (String.length w) (String.length s) s)
  | Word w => search_word w false s
  end.

End Re.

(** [utils.detect_column_pattern] *)
Definition detect_column_pattern (column_name : string) (patterns : list Re.pattern) : bool :=
  let column_lower := Py.lower column_name in
  existsb (fun pattern => Re.search pattern column_lower) patterns.

Definition ID_PATTERNS : list Re.pattern :=
  [ Re.Word "id"; Re.Whole "id"; Re.AtEnd "_id"; Re.Lit "id_"; Re.AtEnd "key";
    Re.AtEnd "pk"; Re.Lit "primary_key"; Re.Lit "uuid"; Re.Lit "serial";
    Re.Lit "index" ].

Definition DATETIME_PATTERNS : list Re.pattern :=
  [ Re.Lit "date"; Re.Lit "time"; Re.Lit "timestamp"; Re.Lit "created";
    Re.Lit "updated"; Re.Lit "modified"; Re.Lit "when"; Re.AtEnd "dt";
    Re.AtEnd "_at"; Re.Lit "day"; Re.Lit "month"; Re.Lit "year" ].

Definition CATEGORICAL_PATTERNS : list Re.pattern :=
  [ Re.Lit "category"; Re.Lit "type"; Re.Lit "status"; Re.Lit "state";
    Re.Lit "country"; Re.Lit "region"; Re.Lit "city"; Re.Lit "segment";
    Re.Lit "group"; Re.Lit "class"; Re.Lit "kind"; Re.Lit "label";
    Re.Lit "tag"; Re.Lit "flag" ].

(** ** NumPy and Python numbers *)

Definition Qltb (x y : Q) : bool := negb (Qle_bool y x).

(** [min(a, b)] *)
Definition py_min (a b : Q) : Q := if Qltb b a then b else a.

Inductive npfloat :=
  | Fin (q : Q)
  | PInf
  | NInf
  | NaN.

Definition np_neg (x : npfloat) : npfloat :=
  match x with
  | Fin q => Fin (- q)
  | PInf => NInf
  | NInf => PInf
  | NaN => NaN
  end.

Definition np_add (x y : npfloat) : npfloat :=
  match x, y with
  | NaN, _ | _, NaN => NaN
  | PInf, NInf | NInf, PInf => NaN
  | PInf, _ | _, PInf => PInf
  | NInf, _ | _, NInf => NInf
  | Fin a, Fin b => Fin (a + b)
  end.

Definition np_sub (x y : npfloat) : npfloat := np_add x (np_neg y).

Definition np_sign (x : npfloat) : comparison :=
  match x with
  | Fin q => (0 ?= q)%Q
  | PInf => Lt
  | NInf => Gt
  | NaN => Eq
  end.

Definition np_mul (x y : npfloat) : npfloat :=
  match x, y with
  | NaN, _ | _, NaN => NaN
  | Fin a, Fin b => Fin (a * b)
  | _, _ =>
      match np_sign x, np_sign y with
      | Eq, _ | _, Eq => NaN
      | Lt, Lt | Gt, Gt => PInf
      | _, _ => NInf
      end
  end.

(** [x < y]; a comparison with NaN is false. *)
Definition np_lt (x y : npfloat) : bool :=
  match x, y with
  | NaN, _ | _, NaN => false
  | _, NInf | PInf, _ => false
  | NInf, _ | _, PInf => true
  | Fin a, Fin b => Qltb a b
  end.

Definition np_gt (x y : npfloat) : bool := np_lt y x.

(** [x >= y]; a comparison with NaN is false. *)
Definition np_ge (x y : npfloat) : bool :=
  match x, y with
  | NaN, _ | _, NaN => false
  | _, _ => negb (np_lt x y)
  end.

(** NumPy's [a / b] on integers: no exception on a zero divisor. *)
Definition np_true_divide (a b : Z) : npfloat :=
  if (b =? 0)%Z then
    match (a ?= 0)%Z with
    | Eq => NaN
    | Gt => PInf
    | Lt => NInf
    end
  else Fin (inject_Z a / inject_Z b).

(** Python's [a / b] on [int]s. *)
Definition py_truediv (a b : Z) : Exc Q :=
  if (b =? 0)%Z then Raise (mkExc ZeroDivisionError "division by zero")
  else Ok (inject_Z a / inject_Z b)%Q.

(** The sum of a sequence of numbers, kept in lowest terms. *)
Definition sum_values (l : list Q) : Q :=
  fold_right (fun x acc => Qred (x + acc)) 0%Q l.

(** The mean of a sequence of numbers; NaN when it is empty. *)
Definition mean (l : list Q) : npfloat :=
  match l with
  | [] => NaN
  | _ => Fin (sum_values l / inject_Z (Z.of_nat (length l)))
  end.

(** ** float64

    A float64 is the rational number it holds. An operation of the
    program on floats is the exact one followed by rounding to the
    nearest float64, ties to even (IEEE 754), and overflows to an
    infinity. Zero carries no sign. *)

(** [2^k] *)
Definition pow2 (k : Z) : Q := (2 ^ k)%Q.

(** The binary exponent of a positive number: the [e] with
    [2^e <= x < 2^(e+1)]. *)
Definition floor_log2 (x : Q) : Z :=
  let a := (Z.log2 (Qnum x) - Z.log2 (Zpos (Qden x)))%Z in
  if Qle_bool (pow2 a) x then a else (a - 1)%Z.

(** The nearest integer, ties to even. *)
Definition round_half_even (x : Q) : Z :=
  let f := Qfloor x in
  match (x - inject_Z f ?= 1 # 2)%Q with
  | Lt => f
  | Gt => (f + 1)%Z
  | Eq => if Z.even f then f else (f + 1)%Z
  end.

(** The nearest multiple of the unit in the last place of [x >= 0]:
    53 bits of precision from the exponent of [x], and the fixed unit
    [2^-1074] below [2^-1022]. *)
Definition round64_pos (x : Q) : Q :=
  let e := Z.max (floor_log2 x) (-1022) in
  let ulp := pow2 (e - 52) in
  Qred (inject_Z (round_half_even (x / ulp)) * ulp).

Definition round64 (x : Q) : Q :=
  if Qltb x 0 then (- round64_pos (- x))%Q else round64_pos x.

(** The float64 that an exact result becomes. *)
Definition fl (x : Q) : npfloat :=
  let r := round64 x in
  if Qle_bool (pow2 1024) r then PInf
  else if Qle_bool r (- pow2 1024) then NInf
  else Fin r.

Definition rounded (x : npfloat) : npfloat :=
  match x with
  | Fin q => fl q
  | _ => x
  end.

(** [x + y], [x - y], [x * y] on float64 *)
Definition float_add (x y : npfloat) : npfloat := rounded (np_add x y).
Definition float_sub (x y : npfloat) : npfloat := rounded (np_sub x y).
Definition float_mul (x y : npfloat) : npfloat := rounded (np_mul x y).

(** NumPy's [a / b] on integers: both become float64, and a zero divisor
    raises nothing. *)
Definition float_true_divide (a b : Z) : npfloat :=
  if (b =? 0)%Z then
    match (a ?= 0)%Z with
    | Eq => NaN
    | Gt => PInf
    | Lt => NInf
    end
  else fl (round64 (inject_Z a) / round64 (inject_Z b)).

(** ** pandas: series and frames *)

Record Timestamp := mkTimestamp {
  ts_year : Z; ts_month : Z; ts_day : Z;
  ts_time : Z  (* nanoseconds since midnight *)
}.

Inductive IntKind :=
  | int8 | int16 | int32 | int64
  | uint8 | uint16 | uint32 | uint64.

Inductive Dtype :=
  | integer (k : IntKind)
  | float64
  | bool_
  | datetime64
  | object.

(** A series with the cells its storage type allows. Integer and boolean
    storage has no missing value; the other kinds mark one by [None]
    (NaN, NaT). Object storage holds Python strings. *)
Inductive Series :=
  | IntSeries (k : IntKind) (v : list Z)
  | FloatSeries (v : list (option Q))
  | BoolSeries (v : list bool)
  | DatetimeSeries (v : list (option Timestamp))
  | ObjectSeries (v : list (option string)).

Inductive Scalar :=
  | SInt (z : Z)
  | SFloat (q : Q)
  | SBool (b : bool)
  | STime (t : Timestamp)
  | SStr (s : string).

Definition timestamp_eqb (a b : Timestamp) : bool :=
  (ts_year a =? ts_year b)%Z && (ts_month a =? ts_month b)%Z &&
  (ts_day a =? ts_day b)%Z && (ts_time a =? ts_time b)%Z.

Definition scalar_eqb (a b : Scalar) : bool :=
  match a, b with
  | SInt x, SInt y => (x =? y)%Z
  | SFloat x, SFloat y => Qeq_bool x y
  | SBool x, SBool y => Bool.eqb x y
  | STime x, STime y => timestamp_eqb x y
  | SStr x, SStr y => String.eqb x y
  | _, _ => false
  end.

(** [s.dtype] *)
Definition dtype (s : Series) : Dtype :=
  match s with
  | IntSeries k _ => integer k
  | FloatSeries _ => float64
  | BoolSeries _ => bool_
  | DatetimeSeries _ => datetime64
  | ObjectSeries _ => object
  end.

(** The cells of a series, a missing one as [None]. *)
Definition cells (s : Series) : list (option Scalar) :=
  match s with
  | IntSeries _ v => map (fun z => Some (SInt z)) v
  | FloatSeries v => map (option_map SFloat) v
  | BoolSeries v => map (fun b => Some (SBool b)) v
  | DatetimeSeries v => map (option_map STime) v
  | ObjectSeries v => map (option_map SStr) v
  end.

(** [len(s)] *)
Definition len (s : Series) : nat := length (cells s).

Definition notna {A} (l : list (option A)) : list (option A) :=
  List.filter (fun c => match c with Some _ => true | None => false end) l.

(** [s.dropna()] *)
Definition dropna (s : Series) : Series :=
  match s with
  | IntSeries t v => IntSeries t v
  | FloatSeries v => FloatSeries (notna v)
  | BoolSeries v => BoolSeries v
  | DatetimeSeries v => DatetimeSeries (notna v)
  | ObjectSeries v => ObjectSeries (notna v)
  end.

(** [s.head(n)] *)
Definition head (n : nat) (s : Series) : Series :=
  match s with
  | IntSeries t v => IntSeries t (take n v)
  | FloatSeries v => FloatSeries (take n v)
  | BoolSeries v => BoolSeries (take n v)
  | DatetimeSeries v => DatetimeSeries (take n v)
  | ObjectSeries v => ObjectSeries (take n v)
  end.

(** The distinct values of a list, in order of first appearance. *)
Fixpoint unique_by {A} (eqb : A -> A -> bool) (l : list A) : list A :=
  match l with
  | [] => []
  | x :: r => x :: List.filter (fun y => negb (eqb x y)) (unique_by eqb r)
  end.

(** [s.dropna().unique().tolist()] *)
Definition unique (s : Series) : list Scalar :=
  unique_by scalar_eqb (omap id (cells s)).

(** [s.nunique()]: the number of distinct non-missing values. *)
Definition nunique (s : Series) : nat := length (unique s).

(** [s.astype(str).str.len()] on object storage; a missing cell reads
    ["nan"]. The schema rules call it on object storage only. *)
Definition str_len (s : Series) : list nat :=
  match s with
  | ObjectSeries v =>
      map (fun c => match c with Some x => String.length x | None => 3%nat end) v
  | _ => []
  end.

Record DataFrame := mkDataFrame {
  nrows : nat;                        (* len(df) *)
  data : list (string * Series)       (* the columns, in order *)
}.

(** [df.columns] *)
Definition columns (df : DataFrame) : list string := map fst (data df).

(** [df[key]] is a series when one column bears the label and a frame
    when several do. *)
Inductive Item :=
  | OneSeries (s : Series)
  | SubFrame (cols : list Series).

Definition getitem (df : DataFrame) (key : string) : Exc Item :=
  match List.filter (fun c => String.eqb (fst c) key) (data df) with
  | [] => Raise (mkExc KeyError ("'" +:+ key +:+ "'"))
  | [c] => Ok (OneSeries (snd c))
  | cs => Ok (SubFrame (map snd cs))
  end.

(** The attributes and methods of a series that the rules use do not
    exist on a frame, or give a frame-shaped result no rule can use. *)
Definition as_series (item : Item) : Exc Series :=
  match item with
  | OneSeries s => Ok s
  | SubFrame _ =>
      Raise (mkExc AttributeError "'DataFrame' object has no attribute 'dtype'")
  end.

(** [dtype in [np.int64, np.int32, np.int16, np.int8]] *)
Definition is_signed_int (t : Dtype) : bool :=
  match t with
  | integer (int8 | int16 | int32 | int64) => true
  | _ => false
  end.

(** pandas' type predicates. Boolean storage counts as numeric for
    [is_numeric_dtype]; object storage counts as string storage. *)

Definition is_numeric_dtype (t : Dtype) : bool :=
  match t with datetime64 | object => false | _ => true end.

Definition is_datetime64_any_dtype (t : Dtype) : bool :=
  match t with datetime64 => true | _ => false end.

Definition is_object (t : Dtype) : bool :=
  match t with object => true | _ => false end.

Definition is_string_dtype (t : Dtype) : bool :=
  match t with object => true | _ => false end.

Definition is_bool_dtype (t : Dtype) : bool :=
  match t with bool_ => true | _ => false end.

(** ** The schema *)

Record Schema := mkSchema {
  id_columns : list string;
  datetime_columns : list string;
  categorical_columns : list string;
  numeric_columns : list string;
  text_columns : list string;
  raw_columns : list string
}.

(** The five role-lists, in the order the record declares them. *)
Definition role_lists (schema : Schema) : list (list string) :=
  [ id_columns schema; datetime_columns schema; categorical_columns schema;
    numeric_columns schema; text_columns schema ].

(** A date parser for ISO dates ([YYYY-MM-DD]), the one the examples run
    the rules with. *)
Definition digit_value (c : ascii) : option Z :=
  if Py.is_digit c then Some (Z.of_nat (nat_of_ascii c) - 48)%Z else None.

Fixpoint digits_value (acc : Z) (l : list ascii) : option Z :=
  match l with
  | [] => Some acc
  | c :: r =>
      match digit_value c with
      | Some d => digits_value (10 * acc + d)%Z r
      | None => None
      end
  end.

Definition parse_iso_date (s : string) : option Timestamp :=
  match list_ascii_of_string s with
  | [y1; y2; y3; y4; "-"%char; m1; m2; "-"%char; d1; d2] =>
      match digits_value 0 [y1; y2; y3; y4], digits_value 0 [m1; m2],
            digits_value 0 [d1; d2] with
      | Some y, Some m, Some d =>
          if ((1 <=? m) && (m <=? 12) && (1 <=? d) && (d <=? 31))%Z
          then Some (mkTimestamp y m d 0) else None
      | _, _, _ => None
      end
  | _ => None
  end.

Definition iso_parser (s : Series) : option (list (option Timestamp)) :=
  match s with
  | ObjectSeries v =>
      Some (map (fun c => match c with Some x => parse_iso_date x | None => None end) v)
  | _ => None
  end.

Section SchemaInference.

(** pandas' date parser on a series that is neither empty nor of
    datetime storage: [None] when [pd.to_datetime] raises whatever its
    [errors] mode, else the outcome cell by cell, [None] for a cell it
    cannot read. *)
Variable parse_datetimes : Series -> option (list (option Timestamp)).

Inductive ErrorsMode := errors_raise | errors_coerce.

(** [pd.to_datetime(arg, errors=...)] *)
Definition to_datetime (arg : Series) (errors : ErrorsMode) : Exc (list (option Timestamp)) :=
  match arg with
  | DatetimeSeries v => Ok v
  | _ =>
      if (len arg =? 0)%nat then Ok []
      else
        match parse_datetimes arg with
        | None => Raise (mkExc ValueError "cannot convert to datetime")
        | Some parsed =>
            match errors with
            | errors_coerce => Ok parsed
            | errors_raise =>
                if forallb (fun c => match c with Some _ => true | None => false end) parsed
                then Ok parsed
                else Raise (mkExc ValueError "unable to parse a value as a datetime")
            end
        end
  end.

(** [pd.to_datetime(df[column].dropna().head(100), errors=...)]; a
    frame with a repeated label cannot be assembled into datetimes. *)
Definition to_datetime_sample (df : DataFrame) (column : string) (errors : ErrorsMode)
  : Exc (list (option Timestamp)) :=
  item ← getitem df column;
  match item with
  | OneSeries s => to_datetime (head 100 (dropna s)) errors
  | SubFrame _ => Raise (mkExc ValueError "cannot assemble with duplicate keys")
  end.

(** [infer_column_type], from [dtype = df[column].dtype] on. *)
Definition classify_by_storage (df : DataFrame) (column : string) : Exc string :=
  item ← getitem df column;
  s ← as_series item;
  let dtype := dtype s in
  if is_numeric_dtype dtype then
    if is_signed_int dtype then
      unique_ratio ← py_truediv (Z.of_nat (nunique s)) (Z.of_nat (nrows df));
      if Qltb (95 # 100) unique_ratio then Ok "id" else Ok "numeric"
    else Ok "numeric"
  else if is_datetime64_any_dtype dtype then Ok "datetime"
  else if is_object dtype && (0 <? len (head 100 (dropna s)))%nat
          && is_ok (to_datetime (head 100 (dropna s)) errors_raise)
  then Ok "datetime"
  else if is_object dtype || is_string_dtype dtype then
    let unique_ratio :=
      (inject_Z (Z.of_nat (nunique s)) / inject_Z (Z.of_nat (Nat.max (nrows df) 1)))%Q in
    let avg_length := mean (map (fun n => inject_Z (Z.of_nat n)) (str_len s)) in
    if Qltb unique_ratio (5 # 10) && np_lt avg_length (Fin 50)
       && (detect_column_pattern column CATEGORICAL_PATTERNS
           || Qltb (inject_Z (Z.of_nat (nunique s)))
                   (py_min 50 (inject_Z (Z.of_nat (nrows df)) * (1 # 10))))
    then Ok "categorical"
    else if np_gt avg_length (Fin 100) then Ok "text"
    else if Qltb unique_ratio (3 # 10) then Ok "categorical"
    else Ok "text"
  else if is_bool_dtype dtype then Ok "categorical"
  else Ok "categorical".

Definition infer_column_type (df : DataFrame) (column : string) : Exc string :=
  if detect_column_pattern column ID_PATTERNS then Ok "id"
  else if detect_column_pattern column DATETIME_PATTERNS
          && is_ok (to_datetime_sample df column errors_raise)
  then Ok "datetime"
  else classify_by_storage df column.

(** One turn of the loop of [infer_schema]. *)
Definition add_column (schema : Schema) (column col_type : string) : Schema :=
  let append l := l ++ [column] in
  if Py.eqb col_type "id" then
    mkSchema (append (id_columns schema)) (datetime_columns schema)
      (categorical_columns schema) (numeric_columns schema) (text_columns schema)
      (raw_columns schema)
  else if Py.eqb col_type "datetime" then
    mkSchema (id_columns schema) (append (datetime_columns schema))
      (categorical_columns schema) (numeric_columns schema) (text_columns schema)
      (raw_columns schema)
  else if Py.eqb col_type "categorical" then
    mkSchema (id_columns schema) (datetime_columns schema)
      (append (categorical_columns schema)) (numeric_columns schema)
      (text_columns schema) (raw_columns schema)
  else if Py.eqb col_type "numeric" then
    mkSchema (id_columns schema) (datetime_columns schema)
      (categorical_columns schema) (append (numeric_columns schema))
      (text_columns schema) (raw_columns schema)
  else if Py.eqb col_type "text" then
    mkSchema (id_columns schema) (datetime_columns schema)
      (categorical_columns schema) (numeric_columns schema)
      (append (text_columns schema)) (raw_columns schema)
  else
    mkSchema (id_columns schema) (datetime_columns schema)
      (append (categorical_columns schema)) (numeric_columns schema)
      (text_columns schema) (raw_columns schema).

(** The position in [role_lists] of the list that a column of type
    [col_type] joins. *)
Definition role_slot (col_type : string) : nat :=
  if Py.eqb col_type "id" then 0
  else if Py.eqb col_type "datetime" then 1
  else if Py.eqb col_type "categorical" then 2
  else if Py.eqb col_type "numeric" then 3
  else if Py.eqb col_type "text" then 4
  else 2.

Fixpoint infer_schema_loop (df : DataFrame) (cols : list string) (schema : Schema) : Exc Schema :=
  match cols with
  | [] => Ok schema
  | column :: rest =>
      col_type ← infer_column_type df column;
      infer_schema_loop df rest (add_column schema column col_type)
  end.

Definition infer_schema (df : DataFrame) : Exc Schema :=
  infer_schema_loop df (columns df) (mkSchema [] [] [] [] [] (columns df)).

(** The slot of a column in a run that does not raise. *)
Definition slot_of (df : DataFrame) (c : string) : nat :=
  match infer_column_type df c with
  | Ok t => role_slot t
  | Raise _ => 2
  end.

End SchemaInference.

(** ** KPI descriptors *)

Inductive PyVal :=
  | VNone
  | VStr (s : string)
  | VInt (z : Z)
  | VFloat (x : npfloat)
  | VList (l : list Scalar).

(** A descriptor: the keys every rule sets, and under [extra] the keys
    only some rules set, in the order of the dict literal. [column] is
    [None] where the source stores Python's [None]. *)
Record Kpi := mkKpi {
  name : string;
  description : string;
  logic : string;
  columns_used : list string;
  category : string;
  subcategory : string;
  difficulty : string;
  sql_function : string;
  column : option string;
  extra : list (string * PyVal)
}.

(** [kpi.get(key)] on the keys of [extra]. *)
Definition kpi_get (kpi : Kpi) (key : string) : option PyVal :=
  snd <$> List.find (fun kv => String.eqb (fst kv) key) (extra kpi).

Definition has_name (n : string) (kpi : Kpi) : bool := String.eqb (name kpi) n.

(** ** [kpi_rules.generate_aggregation_kpis] *)

Definition generate_aggregation_kpis (schema : Schema) (df : DataFrame) : list Kpi :=
  flat_map (fun col =>
    [ mkKpi ("Total " +:+ Py.pretty_label col)
        ("Sum of " +:+ col +:+ " across all records.")
        ("SUM(" +:+ col +:+ ")")
        [col] "aggregation" "sum" "easy" "SUM" (Some col) [];
      mkKpi ("Average " +:+ Py.pretty_label col)
        ("Average value of " +:+ col +:+ " across all records.")
        ("AVG(" +:+ col +:+ ")")
        [col] "aggregation" "average" "easy" "AVG" (Some col) [];
      mkKpi ("Minimum " +:+ Py.pretty_label col)
        ("Minimum value of " +:+ col +:+ " across all records.")
        ("MIN(" +:+ col +:+ ")")
        [col] "aggregation" "min" "easy" "MIN" (Some col) [];
      mkKpi ("Maximum " +:+ Py.pretty_label col)
        ("Maximum value of " +:+ col +:+ " across all records.")
        ("MAX(" +:+ col +:+ ")")
        [col] "aggregation" "max" "easy" "MAX" (Some col) [] ])
    (numeric_columns schema)
  ++ map (fun col =>
      mkKpi ("Total Count of " +:+ Py.pretty_label col)
        ("Total count of unique " +:+ col +:+ ".")
        ("COUNT(DISTINCT " +:+ col +:+ ")")
        [col] "aggregation" "count_distinct" "easy" "COUNT_DISTINCT" (Some col) [])
    (id_columns schema)
  ++ (if (0 <? nrows df)%nat then
        [ mkKpi "Total Records" "Total number of records in the dataset."
            "COUNT(*)" [] "aggregation" "count" "easy" "COUNT" None [] ]
      else []).

(** ** [kpi_rules.generate_time_series_kpis] *)

Definition date_eqb (a b : Z * Z * Z) : bool :=
  let '(y, m, d) := a in
  let '(y', m', d') := b in
  ((y =? y') && (m =? m') && (d =? d'))%Z.

(** [ts.date()] *)
Definition ts_date (t : Timestamp) : Z * Z * Z := (ts_year t, ts_month t, ts_day t).

(** The descriptors of the rule; [group_by] and [group_by_function] are
    keys of this family. *)
Definition sum_per_year (num_col datetime_col : string) : Kpi :=
  mkKpi (Py.pretty_label num_col +:+ " per Year")
    ("Total " +:+ num_col +:+ " aggregated by year.")
    ("SUM(" +:+ num_col +:+ ") GROUP BY YEAR(" +:+ datetime_col +:+ ")")
    [num_col; datetime_col] "time_series" "yearly" "medium" "SUM" (Some num_col)
    [("group_by", VStr datetime_col); ("group_by_function", VStr "YEAR")].

Definition sum_per_month (num_col datetime_col note : string) : Kpi :=
  mkKpi (Py.pretty_label num_col +:+ " per Month")
    ("Total " +:+ num_col +:+ " aggregated by month" +:+ note +:+ ".")
    ("SUM(" +:+ num_col +:+ ") GROUP BY YEAR(" +:+ datetime_col +:+ "), MONTH("
       +:+ datetime_col +:+ ")")
    [num_col; datetime_col] "time_series" "monthly" "medium" "SUM" (Some num_col)
    [("group_by", VStr datetime_col); ("group_by_function", VStr "YEAR_MONTH")].

Definition sum_per_day (num_col datetime_col : string) : Kpi :=
  mkKpi (Py.pretty_label num_col +:+ " per Day")
    ("Total " +:+ num_col +:+ " aggregated by day.")
    ("SUM(" +:+ num_col +:+ ") GROUP BY DATE(" +:+ datetime_col +:+ ")")
    [num_col; datetime_col] "time_series" "daily" "medium" "SUM" (Some num_col)
    [("group_by", VStr datetime_col); ("group_by_function", VStr "DATE")].

Definition new_per_year (id_col datetime_col : string) : Kpi :=
  mkKpi ("New " +:+ Py.pretty_label id_col +:+ " per Year")
    ("Count of new " +:+ id_col +:+ " per year.")
    ("COUNT(DISTINCT " +:+ id_col +:+ ") GROUP BY YEAR(" +:+ datetime_col +:+ ")")
    [id_col; datetime_col] "time_series" "yearly" "medium" "COUNT_DISTINCT" (Some id_col)
    [("group_by", VStr datetime_col); ("group_by_function", VStr "YEAR")].

Definition new_per_month (id_col datetime_col : string) : Kpi :=
  mkKpi ("New " +:+ Py.pretty_label id_col +:+ " per Month")
    ("Count of new " +:+ id_col +:+ " per month.")
    ("COUNT(DISTINCT " +:+ id_col +:+ ") GROUP BY YEAR(" +:+ datetime_col +:+ "), MONTH("
       +:+ datetime_col +:+ ")")
    [id_col; datetime_col] "time_series" "monthly" "medium" "COUNT_DISTINCT" (Some id_col)
    [("group_by", VStr datetime_col); ("group_by_function", VStr "YEAR_MONTH")].

Definition new_per_day (id_col datetime_col : string) : Kpi :=
  mkKpi ("New " +:+ Py.pretty_label id_col +:+ " per Day")
    ("Count of new " +:+ id_col +:+ " per day.")
    ("COUNT(DISTINCT " +:+ id_col +:+ ") GROUP BY DATE(" +:+ datetime_col +:+ ")")
    [id_col; datetime_col] "time_series" "daily" "medium" "COUNT_DISTINCT" (Some id_col)
    [("group_by", VStr datetime_col); ("group_by_function", VStr "DATE")].

Section TimeSeries.

Variable parse_datetimes : Series -> option (list (option Timestamp)).

(** The granularity the rule settles on for its datetime column. *)
Definition time_granularity (df : DataFrame) (datetime_col : string) : string :=
  let datetime_col_lower := Py.lower datetime_col in
  let is_year_column := Py.contains "year" datetime_col_lower in
  if existsb (String.eqb datetime_col) (columns df) then
    match to_datetime_sample parse_datetimes df datetime_col errors_coerce with
    | Ok parsed =>
        let sample_dates := omap id parsed in
        if (0 <? length sample_dates)%nat then
          let unique_years := length (unique_by Z.eqb (map ts_year sample_dates)) in
          let unique_days := length (unique_by date_eqb (map ts_date sample_dates)) in
          if is_year_column || ((unique_years <=? 2)%nat && (unique_days <=? 2)%nat)
          then "year"
          else if Qltb (inject_Z (Z.of_nat unique_days))
                       (inject_Z (Z.of_nat (length sample_dates)) * (1 # 10))
          then "month"
          else "day"
        else "day"
    | Raise _ => if is_year_column then "year" else "day"
    end
  else "day".

Definition generate_time_series_kpis (schema : Schema) (df : DataFrame) : list Kpi :=
  let numeric_cols := numeric_columns schema in
  let id_cols := id_columns schema in
  match datetime_columns schema with
  | [] => []
  | datetime_col :: _ =>
      let time_granularity := time_granularity df datetime_col in
      flat_map (fun num_col =>
        if Py.eqb time_granularity "year" then
          [ sum_per_year num_col datetime_col;
            sum_per_month num_col datetime_col " (if month data available)" ]
        else if Py.eqb time_granularity "month" then
          [ sum_per_month num_col datetime_col "";
            sum_per_year num_col datetime_col ]
        else
          [ sum_per_day num_col datetime_col;
            sum_per_month num_col datetime_col "" ])
        numeric_cols
      ++ map (fun id_col =>
           if Py.eqb time_granularity "year" then new_per_year id_col datetime_col
           else if Py.eqb time_granularity "month" then new_per_month id_col datetime_col
           else new_per_day id_col datetime_col)
           (take 1 id_cols)
  end.

End TimeSeries.

(** ** [kpi_rules.generate_category_breakdown_kpis] *)

Definition generate_category_breakdown_kpis (schema : Schema) (df : DataFrame) : list Kpi :=
  let categorical_cols := categorical_columns schema in
  let numeric_cols := numeric_columns schema in
  flat_map (fun cat_col =>
    flat_map (fun num_col =>
      [ mkKpi (Py.pretty_label num_col +:+ " by " +:+ Py.pretty_label cat_col)
          ("Total " +:+ num_col +:+ " broken down by " +:+ cat_col +:+ ".")
          ("SUM(" +:+ num_col +:+ ") GROUP BY " +:+ cat_col)
          [num_col; cat_col] "category_breakdown" "sum_by_category" "medium" "SUM"
          (Some num_col) [("group_by", VStr cat_col)];
        mkKpi ("Average " +:+ Py.pretty_label num_col +:+ " by " +:+ Py.pretty_label cat_col)
          ("Average " +:+ num_col +:+ " broken down by " +:+ cat_col +:+ ".")
          ("AVG(" +:+ num_col +:+ ") GROUP BY " +:+ cat_col)
          [num_col; cat_col] "category_breakdown" "avg_by_category" "medium" "AVG"
          (Some num_col) [("group_by", VStr cat_col)] ])
      numeric_cols
    ++ [ mkKpi ("Count by " +:+ Py.pretty_label cat_col)
           ("Number of records broken down by " +:+ cat_col +:+ ".")
           ("COUNT(*) GROUP BY " +:+ cat_col)
           [cat_col] "category_breakdown" "count_by_category" "easy" "COUNT"
           None [("group_by", VStr cat_col)] ])
    categorical_cols.


(** ** Sums and formatting *)

Definition is_unsigned (k : IntKind) : bool :=
  match k with
  | uint8 | uint16 | uint32 | uint64 => true
  | _ => false
  end.

(** NumPy accumulates an integer sum in 64 bits, and wraps. *)
Definition wrap64 (k : IntKind) (z : Z) : Z :=
  if is_unsigned k then z mod 2 ^ 64
  else (z + 2 ^ 63) mod 2 ^ 64 - 2 ^ 63.

(** [s.sum()]: missing values are skipped; booleans count; strings are
    concatenated, and cannot be added to the zero that stands for a
    missing one; timestamps cannot be summed. *)
Definition series_sum (s : Series) : Exc Scalar :=
  match s with
  | IntSeries k v => Ok (SInt (wrap64 k (fold_right Z.add 0%Z v)))
  | FloatSeries v => Ok (SFloat (sum_values (omap id v)))
  | BoolSeries v => Ok (SInt (Z.of_nat (length (List.filter id v))))
  | DatetimeSeries _ =>
      Raise (mkExc TypeError "'DatetimeArray' with dtype datetime64[ns] does not support operation 'sum'")
  | ObjectSeries v =>
      match omap id v with
      | [] => Ok (SInt 0)
      | texts =>
          if (length texts =? length v)%nat
          then Ok (SStr (fold_right String.append "" texts))
          else Raise (mkExc TypeError "can only concatenate str (not int) to str")
      end
  end.

(** [x != 0] *)
Definition ne_zero (x : Scalar) : bool :=
  match x with
  | SInt z => negb (z =? 0)%Z
  | SFloat q => negb (Qeq_bool q 0)
  | SBool b => b
  | STime _ | SStr _ => true
  end.

(** A condition on what [df[col]] yields: a frame yields one value per
    column, whose truth [if] refuses. *)
Definition one_series (item : Item) : Exc Series :=
  match item with
  | OneSeries s => Ok s
  | SubFrame _ =>
      Raise (mkExc ValueError "The truth value of a Series is ambiguous.")
  end.

(** [for x in xs: ...] where each turn yields descriptors or raises. *)
Fixpoint for_each {A} (xs : list A) (body : A -> Exc (list Kpi)) : Exc (list Kpi) :=
  match xs with
  | [] => Ok []
  | x :: rest =>
      kpis ← body x;
      more ← for_each rest body;
      Ok (kpis ++ more)
  end.

Section RuleEngine.

Variable parse_datetimes : Series -> option (list (option Timestamp)).

(** Python's [format(value, spec)], used for the numbers and values
    that f-strings embed. *)
Variable py_format : Scalar -> string -> string.

(** [f"{x}"] *)
Definition fstr (x : Scalar) : string :=
  match x with
  | SStr s => s
  | _ => py_format x ""
  end.

Definition format_float (x : npfloat) (spec : string) : string :=
  match x with
  | Fin q => py_format (SFloat q) spec
  | PInf => "inf"
  | NInf => "-inf"
  | NaN => "nan"
  end.

(** ** [kpi_rules.generate_conversion_kpis] *)

Definition status_patterns : list string := ["status"; "state"; "stage"; "phase"; "type"].

Definition generate_conversion_kpis (schema : Schema) (df : DataFrame) : Exc (list Kpi) :=
  let categorical_cols := categorical_columns schema in
  let status_cols :=
    List.filter (fun col => existsb (fun pattern => Py.contains pattern (Py.lower col))
                                    status_patterns) categorical_cols in
  for_each status_cols (fun status_col =>
    let distribution :=
      mkKpi (Py.pretty_label status_col +:+ " Distribution")
        ("Distribution of records by " +:+ status_col +:+ ".")
        ("COUNT(*) GROUP BY " +:+ status_col)
        [status_col] "conversion" "distribution" "easy" "COUNT" None
        [("group_by", VStr status_col)] in
    item ← getitem df status_col;
    s ← one_series item;
    if (nunique s =? 2)%nat then
      let values := unique s in
      match values with
      | [v0; _] =>
          Ok [ distribution;
               mkKpi (Py.pretty_label status_col +:+ " Rate")
                 ("Percentage of records with " +:+ status_col +:+ " = " +:+ fstr v0 +:+ ".")
                 ("COUNT(CASE WHEN " +:+ status_col +:+ " = " +:+ String (ascii_of_nat 34) ""
                    +:+ fstr v0 +:+ String (ascii_of_nat 34) "" +:+ " THEN 1 END) / COUNT(*) * 100")
                 [status_col] "conversion" "rate" "medium" "RATE" (Some status_col)
                 [("status_values", VList values)] ]
      | _ => Ok [distribution]
      end
    else Ok [distribution]).

(** ** [kpi_rules.generate_advanced_kpis] *)

Definition median_kpi (col : string) : Kpi :=
  mkKpi ("Median " +:+ Py.pretty_label col)
    ("Median (50th percentile) value of " +:+ col +:+ ".")
    ("PERCENTILE_CONT(0.5) WITHIN GROUP (ORDER BY " +:+ col +:+ ")")
    [col] "statistical" "percentile" "medium" "MEDIAN" (Some col)
    [("percentile", VInt 50)].

Definition percentile_kpi (col : string) (percentile : Z) : Kpi :=
  mkKpi (pretty percentile +:+ "th Percentile of " +:+ Py.pretty_label col)
    (pretty percentile +:+ "th percentile value of " +:+ col +:+ ".")
    ("PERCENTILE_CONT(" +:+ py_format (SFloat (inject_Z percentile / 100)) ""
       +:+ ") WITHIN GROUP (ORDER BY " +:+ col +:+ ")")
    [col] "statistical" "percentile" "medium" "PERCENTILE" (Some col)
    [("percentile", VInt percentile)].

Definition ratio_kpi (col1 col2 : string) : Kpi :=
  mkKpi (Py.pretty_label col2 +:+ " to " +:+ Py.pretty_label col1 +:+ " Ratio")
    ("Ratio of " +:+ col2 +:+ " to " +:+ col1 +:+ ".")
    ("SUM(" +:+ col2 +:+ ") / SUM(" +:+ col1 +:+ ")")
    [col1; col2] "ratio" "numeric_ratio" "medium" "RATIO" (Some col2)
    [("denominator", VStr col1)].

Definition growth_kpi (num_col datetime_col : string) : Kpi :=
  mkKpi (Py.pretty_label num_col +:+ " Growth Rate")
    ("Period-over-period growth rate of " +:+ num_col +:+ ".")
    ("(SUM(" +:+ num_col +:+ ") - LAG(SUM(" +:+ num_col +:+ "))) / LAG(SUM("
       +:+ num_col +:+ ")) * 100")
    [num_col; datetime_col] "growth" "pct_change" "advanced" "GROWTH_RATE" (Some num_col) [].

(** [df[col1].sum() != 0] *)
Definition sum_ne_zero (df : DataFrame) (col1 : string) : Exc bool :=
  item ← getitem df col1;
  s ← one_series item;
  total ← series_sum s;
  Ok (ne_zero total).

(** The two nested loops over [enumerate(numeric_cols)] and
    [numeric_cols[i+1:]]; the guard is evaluated once per pair. *)
Fixpoint ratio_kpis (df : DataFrame) (numeric_cols : list string) : Exc (list Kpi) :=
  match numeric_cols with
  | [] => Ok []
  | col1 :: rest =>
      kpis ← for_each rest (fun col2 =>
                nonzero ← sum_ne_zero df col1;
                Ok (if nonzero : bool then [ratio_kpi col1 col2] else []));
      more ← ratio_kpis df rest;
      Ok (kpis ++ more)
  end.

Definition generate_advanced_kpis (schema : Schema) (df : DataFrame) : Exc (list Kpi) :=
  let numeric_cols := numeric_columns schema in
  let datetime_cols := datetime_columns schema in
  let percentiles :=
    flat_map (fun col => median_kpi col :: map (percentile_kpi col) [25; 75]%Z) numeric_cols in
  ratios ← (if (2 <=? length numeric_cols)%nat then ratio_kpis df numeric_cols else Ok []);
  let growth :=
    match datetime_cols, numeric_cols with
    | datetime_col :: _, _ :: _ =>
        map (fun num_col => growth_kpi num_col datetime_col) (take 2 numeric_cols)
    | _, _ => []
    end in
  Ok (percentiles ++ ratios ++ growth).

End RuleEngine.

(** ** Statistics of [creative_kpis.detect_anomalies_kpis] *)

Fixpoint insert_sorted (x : Q) (l : list Q) : list Q :=
  match l with
  | [] => [x]
  | y :: r => if Qle_bool x y then x :: l else y :: insert_sorted x r
  end.

Definition sort_values (l : list Q) : list Q := fold_right insert_sorted [] l.

(** NumPy's linear interpolation from [a] to [b]. *)
Definition lerp (a b t : npfloat) : npfloat :=
  let diff_b_a := float_sub b a in
  if np_ge t (Fin (1 # 2))
  then float_sub b (float_mul diff_b_a (float_sub (Fin 1) t))
  else float_add a (float_mul diff_b_a t).

(** [s.quantile(q)] on float64 values: NumPy's percentile with linear
    interpolation between the two order statistics around the position
    [(n - 1) * q]; NaN without values. *)
Definition quantile (values : list Q) (q : Q) : npfloat :=
  match sort_values values with
  | [] => NaN
  | (x0 :: _) as sorted =>
      let virtual_index :=
        float_mul (fl (inject_Z (Z.of_nat (length sorted) - 1))) (fl q) in
      match virtual_index with
      | Fin position =>
          let previous := Z.to_nat (Qfloor position) in
          let gamma := float_sub virtual_index (fl (inject_Z (Qfloor position))) in
          let a := nth previous sorted x0 in
          let b := nth (S previous) sorted a in
          lerp (Fin a) (Fin b) gamma
      | _ => NaN
      end
  end.

(** The number of values with [abs(zscore) > 3], the score being
    [(v - mean) / std] with the population deviation. The test is
    written on squares, [(v - mean)^2 > 9 * variance], and in exact
    arithmetic; with a zero deviation every score is NaN and no value
    counts, as here. *)
Definition zscore_anomalies (values : list Q) : nat :=
  let n := inject_Z (Z.of_nat (length values)) in
  let mu := (sum_values values / n)%Q in
  let variance := (sum_values (map (fun v => (v - mu) * (v - mu)) values) / n)%Q in
  length (List.filter (fun v => Qltb (9 * variance) ((v - mu) * (v - mu))) values).

(** The float64 that a cell holds: the one nearest to the number
    written. *)
Definition as_float64 (q : Q) : Q := round64 q.

(** The number of cells outside the [1.5 * IQR] fences; a missing cell
    compares false. *)
Definition iqr_outliers (cells : list (option Q)) : nat :=
  let column := map (option_map as_float64) cells in
  let Q1 := quantile (omap id column) (25 # 100) in
  let Q3 := quantile (omap id column) (75 # 100) in
  let IQR := float_sub Q3 Q1 in
  let low := float_sub Q1 (float_mul (Fin (15 # 10)) IQR) in
  let high := float_add Q3 (float_mul (Fin (15 # 10)) IQR) in
  length (List.filter (fun c =>
            match c with
            | Some v => np_lt (Fin v) low || np_gt (Fin v) high
            | None => false
            end) column).

(** The numbers of a column; SciPy and pandas compute these statistics
    on integer and float storage only. *)
Definition numeric_cells (s : Series) : Exc (list (option Q)) :=
  match s with
  | IntSeries _ v => Ok (map (fun z => Some (inject_Z z)) v)
  | FloatSeries v => Ok v
  | _ => Raise (mkExc TypeError "unsupported operand type(s)")
  end.

Section Creative.

Variable py_format : Scalar -> string -> string.

(** The rules of the creative family that rest on SciPy and on pandas
    group-by: taken as they are, each returns descriptors or raises. *)
Variable detect_seasonality_kpis : DataFrame -> Schema -> Exc (list Kpi).
Variable generate_comparative_kpis : DataFrame -> Schema -> Exc (list Kpi).
Variable detect_distribution_patterns_kpis : DataFrame -> Schema -> Exc (list Kpi).
Variable detect_trend_breakpoints_kpis : DataFrame -> Schema -> Exc (list Kpi).

(** [outlier_pct] of a column: the share of fence outliers among all
    rows, in percent. *)
Definition outlier_pct (df : DataFrame) (cells : list (option Q)) : npfloat :=
  float_mul (float_true_divide (Z.of_nat (iqr_outliers cells)) (Z.of_nat (nrows df)))
            (Fin 100).

Definition anomaly_rate_kpi (col : string) (anomalies : nat) (anomaly_pct : Q) : Kpi :=
  mkKpi ("Anomaly Rate in " +:+ Py.pretty_label col)
    (py_format (SFloat anomaly_pct) ".1f" +:+ "% of " +:+ col +:+
     " values are statistical anomalies (3+ standard deviations from mean). These outliers may indicate data errors or exceptional events worth investigating.")
    ("COUNT(CASE WHEN ABS((" +:+ col +:+ " - AVG(" +:+ col +:+ ")) / STDDEV(" +:+ col
       +:+ ")) > 3 THEN 1 END) / COUNT(*) * 100")
    [col] "anomaly_detection" "zscore_anomalies" "advanced" "ANOMALY_RATE" (Some col)
    [ ("anomaly_count", VInt (Z.of_nat anomalies));
      ("anomaly_percentage", VFloat (Fin anomaly_pct));
      ("insight", VStr "High anomaly rates may indicate data quality issues or exceptional business events.") ].

Definition outlier_detection_kpi (col : string) (outliers : nat) (pct : npfloat) : Kpi :=
  mkKpi ("Outlier Detection in " +:+ Py.pretty_label col)
    (format_float py_format pct ".1f" +:+
     "% of records are outliers based on IQR method. Outliers can reveal exceptional cases or data quality issues.")
    ("IQR-based outlier detection for " +:+ col)
    [col] "anomaly_detection" "iqr_outliers" "advanced" "OUTLIER_DETECTION" (Some col)
    [ ("outlier_count", VInt (Z.of_nat outliers));
      ("outlier_percentage", VFloat pct);
      ("insight", VStr "Consider investigating outliers - they may represent opportunities or errors.") ].

(** One turn of the loop of [detect_anomalies_kpis]. *)
Definition anomalies_of_column (df : DataFrame) (col : string) : Exc (list Kpi) :=
  item ← getitem df col;
  s ← one_series item;
  cells ← numeric_cells s;
  let values := omap id cells in
  let anomalies := zscore_anomalies values in
  let anomaly_pct :=
    if (0 <? length values)%nat
    then (inject_Z (Z.of_nat anomalies) / inject_Z (Z.of_nat (length values)) * 100)%Q
    else 0%Q in
  let outliers := iqr_outliers cells in
  let outlier_pct := outlier_pct df cells in
  Ok ((if Qltb 0 anomaly_pct then [anomaly_rate_kpi col anomalies anomaly_pct] else [])
      ++ (if np_gt outlier_pct (Fin 5) then [outlier_detection_kpi col outliers outlier_pct]
          else [])).

Definition detect_anomalies_kpis (df : DataFrame) (schema : Schema) : Exc (list Kpi) :=
  for_each (numeric_columns schema) (anomalies_of_column df).

Definition generate_creative_kpis (df : DataFrame) (schema : Schema) : Exc (list Kpi) :=
  anomalies ← detect_anomalies_kpis df schema;
  seasonality ← detect_seasonality_kpis df schema;
  comparative ← generate_comparative_kpis df schema;
  distribution ← detect_distribution_patterns_kpis df schema;
  breakpoints ← detect_trend_breakpoints_kpis df schema;
  Ok (anomalies ++ seasonality ++ comparative ++ distribution ++ breakpoints).

End Creative.

(** ** The outlier rule in the specification's words

    The share of fence outliers of a column: the part of the rows whose
    value lies below [Q1 - 1.5 * IQR] or above [Q3 + 1.5 * IQR], where
    [Q1] and [Q3] are the quartiles of the column's values and
    [IQR = Q3 - Q1]. The fences are float64 numbers, as the values
    are. *)

Definition lower_fence (values : list Q) : npfloat :=
  let Q1 := quantile values (25 # 100) in
  let Q3 := quantile values (75 # 100) in
  float_sub Q1 (float_mul (Fin (15 # 10)) (float_sub Q3 Q1)).

Definition upper_fence (values : list Q) : npfloat :=
  let Q1 := quantile values (25 # 100) in
  let Q3 := quantile values (75 # 100) in
  float_add Q3 (float_mul (Fin (15 # 10)) (float_sub Q3 Q1)).

Definition is_fence_outlier (low high : npfloat) (v : Q) : bool :=
  np_lt (Fin v) low || np_gt (Fin v) high.

Definition fence_outliers (values : list Q) : list Q :=
  let low := lower_fence values in
  let high := upper_fence values in
  List.filter (is_fence_outlier low high) values.

Definition fence_outlier_share (rows : nat) (values : list Q) : Q :=
  inject_Z (Z.of_nat (length (fence_outliers values))) / inject_Z (Z.of_nat rows).

(** The float64 values of a column of numbers, the missing ones left
    out. *)
Definition float64_values (df : DataFrame) (col : string) : list Q :=
  match getitem df col with
  | Ok (OneSeries s) =>
      match numeric_cells s with
      | Ok cells => map as_float64 (omap id cells)
      | Raise _ => []
      end
  | _ => []
  end.


(** ** [kpi_rules.generate_kpis] *)

(** The loop that removes duplicates based on the name. *)
Fixpoint remove_duplicates_loop (all_kpis : list Kpi) (seen_names : gset string)
    (unique_kpis : list Kpi) : list Kpi :=
  match all_kpis with
  | [] => unique_kpis
  | kpi :: rest =>
      if decide (name kpi ∈ seen_names) then
        remove_duplicates_loop rest seen_names unique_kpis
      else
        remove_duplicates_loop rest ({[name kpi]} ∪ seen_names) (unique_kpis ++ [kpi])
  end.

Definition remove_duplicates (all_kpis : list Kpi) : list Kpi :=
  remove_duplicates_loop all_kpis ∅ [].

(** What the loop adds to [unique_kpis]: the descriptors whose name is
    neither in [seen_names] nor borne by an earlier descriptor. *)
Fixpoint first_wins (seen_names : gset string) (all_kpis : list Kpi) : list Kpi :=
  match all_kpis with
  | [] => []
  | kpi :: rest =>
      if decide (name kpi ∈ seen_names) then first_wins seen_names rest
      else kpi :: first_wins ({[name kpi]} ∪ seen_names) rest
  end.

Section GenerateKpis.

Variable parse_datetimes : Series -> option (list (option Timestamp)).
Variable py_format : Scalar -> string -> string.
Variable detect_seasonality_kpis : DataFrame -> Schema -> Exc (list Kpi).
Variable generate_comparative_kpis : DataFrame -> Schema -> Exc (list Kpi).
Variable detect_distribution_patterns_kpis : DataFrame -> Schema -> Exc (list Kpi).
Variable detect_trend_breakpoints_kpis : DataFrame -> Schema -> Exc (list Kpi).

Definition creative_kpis : DataFrame -> Schema -> Exc (list Kpi) :=
  generate_creative_kpis py_format detect_seasonality_kpis generate_comparative_kpis
    detect_distribution_patterns_kpis detect_trend_breakpoints_kpis.

(** The descriptors of the rule families, end to end in emission order,
    with the lines printed on the way: the first five families raise
    through; the creative family is wrapped in [try ... except Exception]. *)
Definition all_kpis (schema : Schema) (df : DataFrame) : list string * Exc (list Kpi) :=
  let aggregation := generate_aggregation_kpis schema df in
  let time_series := generate_time_series_kpis parse_datetimes schema df in
  let breakdown := generate_category_breakdown_kpis schema df in
  match generate_conversion_kpis py_format schema df with
  | Raise e => ([], Raise e)
  | Ok conversion =>
      match generate_advanced_kpis py_format schema df with
      | Raise e => ([], Raise e)
      | Ok advanced =>
          let five := aggregation ++ time_series ++ breakdown ++ conversion ++ advanced in
          match creative_kpis df schema with
          | Ok creative => ([], Ok (five ++ creative))
          | Raise e =>
              (["Warning: Could not generate creative KPIs: " +:+ exc_args e], Ok five)
          end
      end
  end.

Definition generate_kpis (schema : Schema) (df : DataFrame) : list string * Exc (list Kpi) :=
  let '(printed, collected) := all_kpis schema df in
  (printed, all_kpis ← collected; Ok (remove_duplicates all_kpis)).

End GenerateKpis.

(** Every value of the series is a zero (a missing cell is no value). *)
Definition all_zero (s : Series) : bool :=
  forallb (fun c => match c with Some x => negb (ne_zero x) | None => true end) (cells s).

(** ** Example tables

    The tables, the formatter and the empty creative rule that the
    examples below run the model on. *)

(** A formatter: integers in decimal, a float as a fraction. *)
Definition plain_format (x : Scalar) (spec : string) : string :=
  match x with
  | SInt z => pretty z
  | SFloat q => pretty (Qnum (Qred q)) +:+ "/" +:+ pretty (Zpos (Qden (Qred q)))
  | SBool true => "True"
  | SBool false => "False"
  | STime t => pretty (ts_year t) +:+ "-" +:+ pretty (ts_month t) +:+ "-" +:+ pretty (ts_day t)
  | SStr s => s
  end.

(** A creative rule that finds nothing to report. *)
Definition no_kpis (df : DataFrame) (schema : Schema) : Exc (list Kpi) := Ok [].

Definition midnight (y m d : Z) : option Timestamp := Some (mkTimestamp y m d 0).

(** An order table: identifier, ISO dates, a region, an amount. *)
Definition orders : DataFrame :=
  mkDataFrame 4
    [ ("order_id", IntSeries int64 [1; 2; 3; 4]%Z);
      ("order_date", ObjectSeries [Some "2024-01-05"; Some "2024-01-06";
                                   Some "2024-02-01"; Some "2024-02-02"]);
      ("region", ObjectSeries [Some "north"; Some "north"; Some "north"; Some "north"]);
      ("amount", FloatSeries [Some (45 # 1); None; Some (50 # 1); Some (55 # 1)]) ].

(** Three fruit names under a label that looks like a date. *)
Definition fruit : DataFrame :=
  mkDataFrame 3
    [ ("update_day", ObjectSeries [Some "apple"; Some "banana"; Some "cherry"]) ].

(** The same names under a label that also looks like a key. *)
Definition fruit_key : DataFrame :=
  mkDataFrame 3
    [ ("date_key", ObjectSeries [Some "apple"; Some "banana"; Some "cherry"]) ].

(** The integers 1 to 1000 under the label [x]. *)
Definition thousand : DataFrame :=
  mkDataFrame 1000 [ ("x", IntSeries int64 (map Z.of_nat (seq 1 1000))) ].

(** Twenty integers, nineteen of them distinct (95%). *)
Definition nineteen_of_twenty : DataFrame :=
  mkDataFrame 20 [ ("x", IntSeries int64 (1%Z :: map Z.of_nat (seq 1 19))) ].

(** Twenty distinct integers in unsigned storage. *)
Definition unsigned_keys : DataFrame :=
  mkDataFrame 20 [ ("x", IntSeries uint64 (map Z.of_nat (seq 1 20))) ].

(** A table without rows. *)
Definition no_rows : DataFrame :=
  mkDataFrame 0
    [ ("x", IntSeries int64 []); ("name", ObjectSeries []);
      ("order_date", ObjectSeries []); ("price", FloatSeries []) ].

(** Columns without any value. *)
Definition all_null : DataFrame :=
  mkDataFrame 3
    [ ("created", ObjectSeries [None; None; None]);
      ("date_key", ObjectSeries [None; None; None]);
      ("notes", ObjectSeries [None; None; None]) ].

(** Four dates, one per calendar year. *)
Definition yearly : DataFrame :=
  mkDataFrame 4
    [ ("recorded", DatetimeSeries [midnight 2020 1 1; midnight 2021 1 1;
                                   midnight 2022 1 1; midnight 2023 1 1]);
      ("amount", FloatSeries [Some (10 # 1); Some (20 # 1); Some (30 # 1); Some (40 # 1)]) ].

Definition yearly_schema : Schema :=
  mkSchema [] ["recorded"] [] ["amount"] [] ["recorded"; "amount"].

(** Two numeric columns, the second one all zero. *)
Definition zero_second : DataFrame :=
  mkDataFrame 3
    [ ("b", IntSeries int64 [1; 2; 3]%Z); ("a", IntSeries int64 [0; 0; 0]%Z) ].

Definition zero_second_schema : Schema :=
  mkSchema [] [] [] ["b"; "a"] [] ["b"; "a"].

(** The same columns, the all-zero one first. *)
Definition zero_first_schema : Schema :=
  mkSchema [] [] [] ["a"; "b"] [] ["a"; "b"].

(** 1000 rows with 50 (5.0%) and with 51 (5.1%) values off the rest. *)
Definition fifty_off : DataFrame :=
  mkDataFrame 1000
    [ ("amount", FloatSeries (repeat (Some 0%Q) 950 ++ repeat (Some 1%Q) 50)) ].

Definition fifty_one_off : DataFrame :=
  mkDataFrame 1000
    [ ("amount", FloatSeries (repeat (Some 0%Q) 949 ++ repeat (Some 1%Q) 51)) ].

(** 17 rows whose largest value, 3.1, exceeds the upper fence by one
    unit in the last place: the fence is 3.0999999999999996. *)
Definition near_fence : DataFrame :=
  mkDataFrame 17
    [ ("amount", FloatSeries (repeat (Some (1 # 10)) 5 ++ repeat (Some (13 # 10)) 11
                              ++ [Some (31 # 10)])) ].

Definition amount_schema : Schema := mkSchema [] [] [] ["amount"] [] ["amount"].

(** Two numeric columns whose labels read the same once displayed. *)
Definition twins : DataFrame :=
  mkDataFrame 2
    [ ("unit_price", FloatSeries [Some (1 # 1); Some (2 # 1)]);
      ("unit price", FloatSeries [Some (3 # 1); Some (4 # 1)]) ].

Definition twins_schema : Schema :=
  mkSchema [] [] [] ["unit_price"; "unit price"] [] ["unit_price"; "unit price"].

(** A schema that lists a numeric column the table does not have. *)
Definition stale_schema : Schema :=
  mkSchema [] [] [] ["missing"] [] ["missing"].

(** The schema of [orders]. *)
Definition orders_schema : Schema :=
  mkSchema ["order_id"] ["order_date"] ["region"] ["amount"] []
           ["order_id"; "order_date"; "region"; "amount"].

(** What the parser raises on a value it cannot read. *)
Definition parse_error : PyExc :=
  mkExc ValueError "unable to parse a value as a datetime".

(** The catalogue of [twins]. *)
Definition twins_kpis : list Kpi :=
  Eval vm_compute in
    match generate_kpis iso_parser plain_format no_kpis no_kpis no_kpis no_kpis
            twins_schema twins with
    | (_, Ok kpis) => kpis
    | _ => []
    end.

(** The statistical descriptors of [stale_schema]. *)
Definition stale_advanced : list Kpi :=
  Eval vm_compute in
    match generate_advanced_kpis plain_format stale_schema orders with
    | Ok kpis => kpis
    | _ => []
    end.

(** The dates of [yearly]. *)
Definition yearly_dates : list Timestamp :=
  [ mkTimestamp 2020 1 1 0; mkTimestamp 2021 1 1 0;
    mkTimestamp 2022 1 1 0; mkTimestamp 2023 1 1 0 ].

(** The statistical descriptors of [zero_second], the all-zero column first. *)
Definition zero_first_kpis : list Kpi :=
  Eval vm_compute in
    match generate_advanced_kpis plain_format zero_first_schema zero_second with
    | Ok kpis => kpis
    | _ => []
    end.

(** The cells of [fifty_one_off]. *)
Definition fifty_one_off_cells : list (option Q) :=
  repeat (Some 0%Q) 949 ++ repeat (Some 1%Q) 51.

(** * Properties *)

Example ex_lower : Py.lower "Order_ID" = "order_id".
Proof. reflexivity. Qed.
Example ex_label : Py.pretty_label "unit_price_usd" = "Unit Price Usd".
Proof. reflexivity. Qed.
Example ex_label2 : Py.pretty_label "it's2nd" = "It'S2Nd".
Proof. reflexivity. Qed.
Example ex_id : map (fun c => detect_column_pattern c ID_PATTERNS)
  ["id"; "order_id"; "ID"; "user id"; "paid"; "x"; "idea"; "monkey"; "date_key"; "grid"; "valid"]
  = [true; true; true; true; false; false; false; true; true; false; false].
Proof. reflexivity. Qed.
Example ex_dt : map (fun c => detect_column_pattern c DATETIME_PATTERNS)
  ["update_day"; "created_at"; "amount"; "x"; "Birthday"; "order_dt"; "dtype"]
  = [true; true; false; false; true; true; false].
Proof. reflexivity. Qed.

(** ** Schema inference *)

Arguments detect_column_pattern : simpl never.
Arguments head : simpl never.
Arguments dropna : simpl never.
Arguments to_datetime : simpl never.
Arguments nunique : simpl never.
Arguments len : simpl never.
Arguments str_len : simpl never.

Section SchemaProperties.

Context (parse : Series -> option (list (option Timestamp))).

Lemma role_slot_lt t : role_slot t < 5.
Proof. unfold role_slot. repeat case_match; lia. Qed.

Lemma slot_of_lt df c : slot_of parse df c < 5.
Proof. unfold slot_of. destruct infer_column_type; [apply role_slot_lt|lia]. Qed.

Lemma role_lists_add_column schema column t :
  role_lists (add_column schema column t)
  = alter (fun l => l ++ [column]) (role_slot t) (role_lists schema).
Proof. unfold add_column, role_slot. repeat case_match; reflexivity. Qed.

Lemma raw_columns_add_column schema column t :
  raw_columns (add_column schema column t) = raw_columns schema.
Proof. unfold add_column. repeat case_match; reflexivity. Qed.

(** The loop appends to each role-list the columns of its slot, in order. *)
Lemma infer_schema_loop_spec df cols : forall schema schema',
  infer_schema_loop parse df cols schema = Ok schema' ->
  raw_columns schema' = raw_columns schema /\
  forall i, i < 5 ->
    role_lists schema' !! i
    = (fun l => l ++ List.filter (fun c => Nat.eqb (slot_of parse df c) i) cols)
        <$> (role_lists schema !! i).
Proof.
  induction cols as [|c cols IH]; intros schema schema' H; simpl in H.
  - injection H as <-. split; [done|]. intros i Hi.
    destruct (role_lists schema !! i) as [l|]; [|reflexivity].
    simpl. by rewrite app_nil_r.
  - destruct (infer_column_type parse df c) as [t|e] eqn:Ht; simpl in H; [|done].
    apply IH in H as [Hraw H]. split.
    { by rewrite Hraw, raw_columns_add_column. }
    intros i Hi. rewrite (H i Hi), role_lists_add_column. simpl.
    unfold slot_of at 2. rewrite Ht.
    destruct (decide (role_slot t = i)) as [->|Hne].
    + rewrite list_lookup_alter_eq, Nat.eqb_refl.
      destruct (role_lists schema !! _) as [l|]; [|reflexivity].
      simpl. by rewrite <- app_assoc.
    + rewrite list_lookup_alter_ne by done.
      apply Nat.eqb_neq in Hne. by rewrite Hne.
Qed.

Lemma infer_schema_role_lists df schema :
  infer_schema parse df = Ok schema ->
  raw_columns schema = columns df /\
  role_lists schema
  = map (fun i => List.filter (fun c => Nat.eqb (slot_of parse df c) i) (columns df))
        (seq 0 5).
Proof.
  intros H. apply infer_schema_loop_spec in H as [Hraw H]. split; [done|].
  apply list_eq. intros i.
  destruct (decide (i < 5)) as [Hi|Hi].
  - rewrite (H i Hi).
    do 5 (destruct i as [|i]; [reflexivity|]). lia.
  - rewrite !lookup_ge_None_2; [done| |]; simpl; lia.
Qed.

Lemma partition_by_slot (f : string -> nat) (cols : list string) :
  (forall c, f c < 5) ->
  concat (map (fun i => List.filter (fun c => Nat.eqb (f c) i) cols) (seq 0 5)) ≡ₚ cols.
Proof.
  intros Hf. induction cols as [|c cols IH]; [done|].
  simpl in *. rewrite !app_nil_r in *.
  pose proof (Hf c) as Hc.
  destruct (f c) as [|[|[|[|[|n]]]]]; simpl; [..|lia];
    (etrans; [|apply perm_skip, IH]); solve_Permutation.
Qed.

Lemma elem_of_slot_filter (f : string -> nat) cols c i :
  c ∈ cols ->
  bool_decide (c ∈ List.filter (fun c' => Nat.eqb (f c') i) cols) = Nat.eqb (f c) i.
Proof.
  intros Hc. destruct (Nat.eqb (f c) i) eqn:E.
  - apply bool_decide_eq_true. apply list_elem_of_In, filter_In.
    split; [by apply list_elem_of_In|done].
  - apply bool_decide_eq_false. intros H%list_elem_of_In%filter_In.
    destruct H as [_ H]. congruence.
Qed.

(** C1. Whenever [infer_schema] returns a schema, its five role-lists
    partition the column list of the table: put end to end they are a
    rearrangement of [df.columns] (nothing omitted, nothing repeated
    beyond the repetitions of the table's own labels), and every column
    label is in exactly one of the five lists; with distinct labels no
    label occurs twice in them. *)
Theorem infer_schema_partition df schema :
  infer_schema parse df = Ok schema ->
  raw_columns schema = columns df /\
  concat (role_lists schema) ≡ₚ columns df /\
  (forall c, c ∈ columns df ->
     length (List.filter (fun l => bool_decide (c ∈ l)) (role_lists schema)) = 1) /\
  (NoDup (columns df) -> NoDup (concat (role_lists schema))).
Proof.
  intros H. apply infer_schema_role_lists in H as [Hraw ->].
  split; [done|].
  assert (Hperm : concat (map (fun i => List.filter
            (fun c => Nat.eqb (slot_of parse df c) i) (columns df)) (seq 0 5))
          ≡ₚ columns df) by apply partition_by_slot, slot_of_lt.
  split; [exact Hperm|]. split.
  2:{ intros Hnd. by rewrite Hperm. }
  - intros c Hc. pose proof (slot_of_lt df c) as Hlt.
    simpl. rewrite !(elem_of_slot_filter _ _ _ _ Hc).
    destruct (slot_of parse df c) as [|[|[|[|[|n]]]]]; simpl; [done..|lia].
Qed.

Lemma Qltb_lt a b : Qltb a b = true <-> (a < b)%Q.
Proof.
  unfold Qltb. rewrite negb_true_iff, <- not_true_iff_false, Qle_bool_iff.
  split; [apply Qnot_le_lt|apply Qlt_not_le].
Qed.

Lemma length_notna {A} (l : list (option A)) : length (notna l) <= length l.
Proof. unfold notna. induction l as [|[a|] l IH]; simpl; lia. Qed.

Lemma len_sample_le s n : len (head n (dropna s)) <= len s.
Proof.
  destruct s; unfold len, head, dropna; simpl; rewrite !length_map, length_take;
    try pose proof (length_notna v); lia.
Qed.

Lemma to_datetime_sample_series df column s errors :
  getitem df column = Ok (OneSeries s) ->
  to_datetime_sample parse df column errors
  = to_datetime parse (head 100 (dropna s)) errors.
Proof. intros H. unfold to_datetime_sample. by rewrite H. Qed.

Lemma to_datetime_raise_nonempty s errors e :
  to_datetime parse s errors = Raise e -> len s <> 0.
Proof.
  unfold to_datetime. intros H Hz. rewrite Hz in H.
  destruct s; simpl in H; discriminate.
Qed.

(** C7, as the code has it. A column whose name matches a datetime
    pattern but whose sample of non-missing values fails to parse is not
    classified as datetime and no exception escapes. When the name
    matches no identifier pattern, the failure is swallowed and the
    result is the one of the storage-type rules, categorical or text for
    object storage; when it matches one, the identifier name rule has
    fired before and the column is an identifier. *)
Theorem datetime_name_parse_failure df column s e :
  getitem df column = Ok (OneSeries s) ->
  len s = nrows df ->
  detect_column_pattern column DATETIME_PATTERNS = true ->
  to_datetime parse (head 100 (dropna s)) errors_raise = Raise e ->
  infer_column_type parse df column
  = (if detect_column_pattern column ID_PATTERNS then Ok "id"
     else classify_by_storage parse df column) /\
  exists t, infer_column_type parse df column = Ok t /\ t <> "datetime" /\
    (detect_column_pattern column ID_PATTERNS = false -> dtype s = object ->
     t = "categorical" \/ t = "text").
Proof.
  intros Hget Hwf Hname Hparse.
  assert (Hrows : nrows df <> 0).
  { apply to_datetime_raise_nonempty in Hparse.
    pose proof (len_sample_le s 100). lia. }
  unfold infer_column_type.
  rewrite Hname, (to_datetime_sample_series _ _ _ _ Hget), Hparse. simpl.
  split; [done|].
  destruct (detect_column_pattern column ID_PATTERNS).
  { eexists. split; [reflexivity|]. split; discriminate. }
  unfold classify_by_storage. rewrite Hget. simpl.
  destruct s as [k v|v|v|v|v]; simpl.
  - unfold py_truediv.
    destruct (Z.eqb_spec (Z.of_nat (nrows df)) 0) as [Hz|_]; [lia|]. simpl.
    repeat case_match; (eexists; split; [reflexivity|]; split; discriminate).
  - eexists; split; [reflexivity|]; split; discriminate.
  - eexists; split; [reflexivity|]; split; discriminate.
  - discriminate Hparse.
  - rewrite Hparse. rewrite andb_false_r. simpl.
    repeat case_match;
      (eexists; split; [reflexivity|]; split; [discriminate|]; intros _ _; auto).
Qed.


(** C8, as the code has it. A column of signed integer storage
    (int8, int16, int32, int64) whose name matches neither an identifier
    nor a datetime pattern is classified as identifier when strictly
    more than 95% of the rows hold distinct values. *)
Theorem integer_key_override df column k v :
  getitem df column = Ok (OneSeries (IntSeries k v)) ->
  is_signed_int (integer k) = true ->
  detect_column_pattern column ID_PATTERNS = false ->
  detect_column_pattern column DATETIME_PATTERNS = false ->
  (95 # 100 < inject_Z (Z.of_nat (nunique (IntSeries k v)))
              / inject_Z (Z.of_nat (nrows df)))%Q ->
  infer_column_type parse df column = Ok "id".
Proof.
  intros Hget Hint Hid Hdt Hratio.
  unfold infer_column_type. rewrite Hid, Hdt. simpl.
  unfold classify_by_storage. rewrite Hget. simpl.
  change (match k with int8 | int16 | int32 | int64 => true | _ => false end)
    with (is_signed_int (integer k)).
  rewrite Hint. unfold py_truediv.
  destruct (Z.eqb_spec (Z.of_nat (nrows df)) 0) as [Hz|_].
  { exfalso. rewrite Hz in Hratio. unfold Qdiv, Qinv in Hratio. simpl in Hratio.
    rewrite Qmult_0_r in Hratio. discriminate Hratio. }
  simpl. apply Qltb_lt in Hratio. by rewrite Hratio.
Qed.

(** C10, as the code has it. A column without any non-missing value
    whose name matches a datetime pattern and no identifier pattern is
    classified as datetime, the parse of the empty sample succeeding;
    such a column of object storage whose name matches no datetime
    pattern is never classified as datetime, the later check parsing
    only a non-empty sample. *)
Theorem all_null_column df column s :
  getitem df column = Ok (OneSeries s) ->
  len (dropna s) = 0 ->
  (detect_column_pattern column ID_PATTERNS = false ->
   detect_column_pattern column DATETIME_PATTERNS = true ->
   infer_column_type parse df column = Ok "datetime") /\
  (detect_column_pattern column DATETIME_PATTERNS = false ->
   dtype s = object ->
   exists t, infer_column_type parse df column = Ok t /\ t <> "datetime").
Proof.
  intros Hget Hnull.
  assert (Hsample : len (head 100 (dropna s)) = 0).
  { revert Hnull. destruct s; unfold len, head, dropna; simpl;
      rewrite !length_map, !length_take; lia. }
  split.
  - intros Hid Hdt. unfold infer_column_type.
    rewrite Hid, Hdt, (to_datetime_sample_series _ _ _ _ Hget).
    unfold to_datetime. rewrite Hsample.
    by destruct (head 100 (dropna s)).
  - intros Hdt Hobj. unfold infer_column_type. rewrite Hdt.
    destruct (detect_column_pattern column ID_PATTERNS).
    { eexists; split; [reflexivity|discriminate]. }
    simpl. unfold classify_by_storage. rewrite Hget. simpl.
    rewrite Hobj, Hsample. simpl.
    repeat case_match; (eexists; split; [reflexivity|discriminate]).
Qed.

(** C3. The unique-ratio of the surrogate-key check divides by
    [len(df)] itself: on a table without rows an [int64] column whose
    name matches no pattern makes [infer_column_type] raise
    [ZeroDivisionError]. *)
Theorem empty_table_integer_column_raises :
  infer_column_type parse (mkDataFrame 0 [("x", IntSeries int64 [])]) "x"
  = Raise (mkExc ZeroDivisionError "division by zero").
Proof. reflexivity. Qed.

(** A table with distinct labels and at least one row is always given a
    schema. *)
Lemma getitem_distinct_labels df c :
  NoDup (columns df) -> c ∈ columns df ->
  exists s, getitem df c = Ok (OneSeries s).
Proof.
  unfold getitem, columns. destruct df as [n cols]. simpl.
  induction cols as [|[c' s'] cols IH]; simpl; intros Hnd Hc.
  - by apply not_elem_of_nil in Hc.
  - apply NoDup_cons in Hnd as [Hfresh Hnd].
    destruct (String.eqb_spec c' c) as [->|Hne].
    + assert (List.filter (fun x => String.eqb (fst x) c) cols = []) as ->; [|by eexists].
      clear IH Hc Hnd. induction cols as [|[c'' s''] cols IH]; simpl in *; [done|].
      apply not_elem_of_cons in Hfresh as [Hne Hfresh].
      destruct (String.eqb_spec c'' c) as [?|_]; [congruence|]. by apply IH.
    + apply elem_of_cons in Hc as [?|Hc]; [congruence|]. by apply IH.
Qed.

Lemma infer_column_type_returns df c s :
  getitem df c = Ok (OneSeries s) -> nrows df <> 0 ->
  exists t, infer_column_type parse df c = Ok t.
Proof.
  intros Hget Hrows. unfold infer_column_type.
  destruct (detect_column_pattern c ID_PATTERNS); [by eexists|].
  destruct (_ && _); [by eexists|].
  unfold classify_by_storage, py_truediv. rewrite Hget. simpl.
  destruct (Z.eqb_spec (Z.of_nat (nrows df)) 0) as [?|_]; [lia|]. simpl.
  repeat case_match; by eexists.
Qed.

Lemma infer_schema_loop_returns df cols : forall schema,
  NoDup (columns df) -> nrows df <> 0 -> cols ⊆ columns df ->
  exists schema', infer_schema_loop parse df cols schema = Ok schema'.
Proof.
  induction cols as [|c cols IH]; intros schema Hnd Hrows Hsub; simpl.
  - by eexists.
  - destruct (getitem_distinct_labels df c Hnd) as [s Hs]; [set_solver|].
    destruct (infer_column_type_returns df c s Hs Hrows) as [t ->]. simpl.
    apply IH; [done..|set_solver].
Qed.

Lemma infer_schema_returns df :
  NoDup (columns df) -> nrows df <> 0 ->
  exists schema, infer_schema parse df = Ok schema.
Proof. intros Hnd Hrows. by apply infer_schema_loop_returns. Qed.

(** On a table without rows, classification raises for the signed
    integer columns that no name pattern catches, and for those only. *)
Lemma zero_rows_signed_integer_raises df c k v :
  nrows df = 0 ->
  getitem df c = Ok (OneSeries (IntSeries k v)) ->
  is_signed_int (integer k) = true ->
  detect_column_pattern c ID_PATTERNS = false ->
  detect_column_pattern c DATETIME_PATTERNS = false ->
  infer_column_type parse df c = Raise (mkExc ZeroDivisionError "division by zero").
Proof.
  intros Hrows Hget Hint Hid Hdt. unfold infer_column_type. rewrite Hid, Hdt. simpl.
  unfold classify_by_storage. rewrite Hget. simpl.
  change (match k with int8 | int16 | int32 | int64 => true | _ => false end)
    with (is_signed_int (integer k)).
  by rewrite Hint, Hrows.
Qed.

Lemma zero_rows_other_storage_returns df c s :
  nrows df = 0 ->
  getitem df c = Ok (OneSeries s) ->
  is_signed_int (dtype s) = false ->
  exists t, infer_column_type parse df c = Ok t.
Proof.
  intros Hrows Hget Hint. unfold infer_column_type.
  destruct (detect_column_pattern c ID_PATTERNS); [by eexists|].
  destruct (_ && _); [by eexists|].
  unfold classify_by_storage. rewrite Hget. simpl. rewrite Hint.
  repeat case_match; by eexists.
Qed.
End SchemaProperties.
(** ** The rule engine *)

Lemma remove_duplicates_loop_first_wins all_kpis : forall seen_names unique_kpis,
  remove_duplicates_loop all_kpis seen_names unique_kpis
  = unique_kpis ++ first_wins seen_names all_kpis.
Proof.
  induction all_kpis as [|kpi rest IH]; intros seen acc; simpl.
  - by rewrite app_nil_r.
  - destruct (decide _); rewrite IH; [done|]. by rewrite <- app_assoc.
Qed.

Lemma first_wins_sublist all_kpis : forall seen_names,
  sublist (first_wins seen_names all_kpis) all_kpis.
Proof.
  induction all_kpis as [|kpi rest IH]; intros seen; simpl; [done|].
  destruct (decide _); [apply sublist_cons|apply sublist_skip]; apply IH.
Qed.

Lemma first_wins_fresh all_kpis : forall seen_names kpi,
  kpi ∈ first_wins seen_names all_kpis -> name kpi ∉ seen_names.
Proof.
  induction all_kpis as [|k rest IH]; intros seen kpi; simpl.
  - by intros ?%not_elem_of_nil.
  - case_decide as Hk.
    + apply IH.
    + intros [->|Hin]%elem_of_cons; [done|].
      apply IH in Hin. set_solver.
Qed.

Lemma first_wins_NoDup all_kpis : forall seen_names,
  NoDup (name <$> first_wins seen_names all_kpis).
Proof.
  induction all_kpis as [|k rest IH]; intros seen; simpl.
  - constructor.
  - case_decide; [apply IH|]. simpl. constructor; [|apply IH].
    intros (k' & Heq & Hin)%list_elem_of_fmap.
    apply first_wins_fresh in Hin. set_solver.
Qed.

Lemma first_wins_find all_kpis n : forall seen_names,
  List.find (has_name n) (first_wins seen_names all_kpis)
  = if decide (n ∈ seen_names) then None else List.find (has_name n) all_kpis.
Proof.
  induction all_kpis as [|k rest IH]; intros seen; simpl.
  - by case_decide.
  - unfold has_name at 2. destruct (String.eqb_spec (name k) n) as [<-|Hne].
    + case_decide as Hk; [by rewrite IH, decide_True|].
      simpl. unfold has_name at 1. by rewrite String.eqb_refl.
    + destruct (decide (name k ∈ seen)) as [Hk|Hk]; [apply IH|].
      simpl. unfold has_name at 1.
      destruct (String.eqb_spec (name k) n) as [?|_]; [done|].
      rewrite IH. destruct (decide (n ∈ seen)) as [Hn|Hn].
      * by rewrite decide_True by (by apply elem_of_union_r).
      * rewrite decide_False; [done|].
        intros [Heq%elem_of_singleton|?]%elem_of_union; congruence.
Qed.

Section RuleEngineProperties.

Context (parse : Series -> option (list (option Timestamp))).
Context (py_format : Scalar -> string -> string).
Context (seasonality comparative distribution breakpoints : DataFrame -> Schema -> Exc (list Kpi)).

(** C2. The list [generate_kpis] returns holds no two descriptors of
    the same name; it is the emitted list with entries left out, the
    order of the others unchanged; and for every name, the descriptor
    of that name in the result is the first one emitted under that
    name (there is one whenever one was emitted). *)
Theorem generate_kpis_first_wins schema df printed kpis :
  generate_kpis parse py_format seasonality comparative distribution breakpoints schema df
  = (printed, Ok kpis) ->
  exists emitted,
    all_kpis parse py_format seasonality comparative distribution breakpoints schema df
    = (printed, Ok emitted) /\
    NoDup (name <$> kpis) /\
    sublist kpis emitted /\
    forall n, List.find (has_name n) kpis = List.find (has_name n) emitted.
Proof.
  unfold generate_kpis. destruct (all_kpis _ _ _ _ _ _ schema df) as [out [emitted|e]]; simpl;
    intros H; inversion H; subst; clear H.
  exists emitted. split; [done|].
  unfold remove_duplicates. rewrite remove_duplicates_loop_first_wins. simpl.
  split; [apply first_wins_NoDup|]. split; [apply first_wins_sublist|].
  intros n. rewrite first_wins_find. by rewrite decide_False by set_solver.
Qed.

(** C9. When the creative family raises, [generate_kpis] does not: it
    prints one warning line and returns the de-duplicated descriptors
    of the five other families, those being the ones they return. *)
Theorem creative_failure_contained schema df e conversion advanced :
  creative_kpis py_format seasonality comparative distribution breakpoints df schema
  = Raise e ->
  generate_conversion_kpis py_format schema df = Ok conversion ->
  generate_advanced_kpis py_format schema df = Ok advanced ->
  generate_kpis parse py_format seasonality comparative distribution breakpoints schema df
  = ( ["Warning: Could not generate creative KPIs: " +:+ exc_args e],
      Ok (remove_duplicates
            (generate_aggregation_kpis schema df
             ++ generate_time_series_kpis parse schema df
             ++ generate_category_breakdown_kpis schema df
             ++ conversion ++ advanced)) ).
Proof.
  intros Hcreative Hconv Hadv.
  unfold generate_kpis, all_kpis.
  by rewrite Hconv, Hadv, Hcreative.
Qed.

End RuleEngineProperties.
(** ** Time series *)

Lemma unique_by_NoDup (l : list Z) : NoDup l -> unique_by Z.eqb l = l.
Proof.
  induction 1 as [|x l Hx Hl IH]; simpl; [done|].
  rewrite IH. f_equal. clear IH Hl.
  induction l as [|y l IH]; simpl; [done|].
  apply not_elem_of_cons in Hx as [Hxy Hx].
  destruct (Z.eqb_spec x y) as [?|_]; [done|]. simpl. f_equal. by apply IH.
Qed.

Section TimeSeriesProperties.

Context (parse : Series -> option (list (option Timestamp))).

(** C4, as the code has it. When the sample of the first datetime
    column parses to four dates of four different calendar years and
    the column name carries no year hint, the rule settles on day
    granularity and emits, for each numeric column, a per-day and a
    per-month descriptor (and a per-day count for the first identifier
    column): none is per-year. *)
Theorem four_yearly_dates_day_granularity schema df datetime_col rest parsed t1 t2 t3 t4 :
  datetime_columns schema = datetime_col :: rest ->
  Py.contains "year" (Py.lower datetime_col) = false ->
  to_datetime_sample parse df datetime_col errors_coerce = Ok parsed ->
  omap id parsed = [t1; t2; t3; t4] ->
  NoDup (ts_year <$> [t1; t2; t3; t4]) ->
  time_granularity parse df datetime_col = "day" /\
  generate_time_series_kpis parse schema df
  = flat_map (fun num_col => [ sum_per_day num_col datetime_col;
                               sum_per_month num_col datetime_col "" ])
             (numeric_columns schema)
    ++ map (fun id_col => new_per_day id_col datetime_col) (take 1 (id_columns schema)) /\
  forall kpi, kpi ∈ generate_time_series_kpis parse schema df ->
    subcategory kpi = "daily" \/ subcategory kpi = "monthly".
Proof.
  intros Hcols Hname Hparse Hsample Hyears.
  assert (Hg : time_granularity parse df datetime_col = "day").
  { unfold time_granularity. rewrite Hname, Hparse, Hsample.
    destruct (existsb _ _); [|done].
    change (map ts_year [t1; t2; t3; t4]) with (ts_year <$> [t1; t2; t3; t4]).
    rewrite (unique_by_NoDup _ Hyears). simpl.
    destruct (Qltb _ _) eqn:E; [|done].
    apply Qltb_lt in E. exfalso. revert E.
    generalize (length (List.filter (fun y => negb (date_eqb (ts_date t1) y))
      (unique_by date_eqb (map ts_date [t2; t3; t4])))).
    intros n. unfold Qlt. simpl. lia. }
  split; [done|].
  assert (Heq : generate_time_series_kpis parse schema df
    = flat_map (fun num_col => [ sum_per_day num_col datetime_col;
                                 sum_per_month num_col datetime_col "" ])
               (numeric_columns schema)
      ++ map (fun id_col => new_per_day id_col datetime_col) (take 1 (id_columns schema))).
  { unfold generate_time_series_kpis. by rewrite Hcols, Hg. }
  split; [done|].
  rewrite Heq. intros kpi [Hin|Hin]%elem_of_app.
  - apply list_elem_of_In, in_flat_map in Hin as (c & _ & Hin).
    apply list_elem_of_In in Hin.
    apply elem_of_cons in Hin as [->|Hin]; [by left|].
    apply list_elem_of_singleton in Hin as ->. by right.
  - apply list_elem_of_fmap in Hin as (c & -> & _). by left.
Qed.

End TimeSeriesProperties.

(** ** Ratios *)

Lemma sum_values_zero (l : list Q) :
  Forall (fun q => Qeq_bool q 0 = true) l -> Qeq_bool (sum_values l) 0 = true.
Proof.
  induction 1 as [|q l Hq _ IH]; simpl; [done|].
  apply Qeq_bool_iff. rewrite Qred_correct.
  apply Qeq_bool_iff in Hq, IH. rewrite Hq, IH. reflexivity.
Qed.

Lemma all_zero_sum s total :
  all_zero s = true -> series_sum s = Ok total -> ne_zero total = false.
Proof.
  unfold all_zero. rewrite forallb_forall. intros Hz Hsum.
  destruct s as [k v|v|v|v|v]; simpl in *.
  - injection Hsum as <-. simpl.
    assert (fold_right Z.add 0%Z v = 0%Z) as ->.
    { induction v as [|z v IH]; simpl; [done|].
      assert (z = 0%Z) as ->.
      { specialize (Hz (Some (SInt z))). simpl in Hz.
        rewrite negb_involutive in Hz. apply Z.eqb_eq, Hz. by left. }
      rewrite IH; [done|]. intros c Hc. apply Hz. by right. }
    unfold wrap64. by destruct (is_unsigned k).
  - injection Hsum as <-. simpl. rewrite sum_values_zero; [done|].
    induction v as [|[q|] v IH]; simpl.
    + constructor.
    + constructor.
      * specialize (Hz (Some (SFloat q))). simpl in Hz.
        rewrite negb_involutive in Hz. apply Hz. by left.
      * apply IH. intros c Hc. apply Hz. by right.
    + apply IH. intros c Hc. apply Hz. by right.
  - injection Hsum as <-. simpl.
    assert (List.filter id v = []) as ->; [|done].
    induction v as [|b v IH]; simpl; [done|].
    assert (b = false) as ->.
    { specialize (Hz (Some (SBool b))). simpl in Hz.
      apply negb_true_iff, Hz. by left. }
    simpl. apply IH. intros c Hc. apply Hz. by right.
  - discriminate.
  - destruct (omap id v) as [|t texts] eqn:E.
    + by injection Hsum as <-.
    + exfalso. clear Hsum.
      induction v as [|[x|] v IH]; simpl in *; [done| |].
      * specialize (Hz (Some (SStr x))). simpl in Hz.
        discriminate Hz. by left.
      * apply IH; [|done]. intros c Hc. apply Hz. by right.
Qed.

Section RatioProperties.

Context (py_format : Scalar -> string -> string).

Lemma for_each_elem {A} (xs : list A) body kpis kpi :
  for_each xs body = Ok kpis -> kpi ∈ kpis ->
  exists x l, x ∈ xs /\ body x = Ok l /\ kpi ∈ l.
Proof.
  revert kpis. induction xs as [|x xs IH]; intros kpis; simpl.
  - intros [= <-] ?%not_elem_of_nil. done.
  - destruct (body x) as [l|e] eqn:Hx; simpl; [|done].
    destruct (for_each xs body) as [more|e]; simpl; [|done].
    intros [= <-] [Hin|Hin]%elem_of_app.
    + exists x, l. split; [by left|done].
    + destruct (IH more eq_refl Hin) as (y & l' & Hy & Hb & Hk).
      exists y, l'. split; [by right|done].
Qed.

Lemma ratio_kpis_elem df numeric_cols : forall kpis kpi,
  ratio_kpis df numeric_cols = Ok kpis -> kpi ∈ kpis ->
  exists col1 col2, kpi = ratio_kpi col1 col2 /\ sum_ne_zero df col1 = Ok true.
Proof.
  induction numeric_cols as [|col1 rest IH]; intros kpis kpi; simpl.
  - intros [= <-] ?%not_elem_of_nil. done.
  - destruct (for_each rest _) as [l|e] eqn:Hl; simpl; [|done].
    destruct (ratio_kpis df rest) as [more|e]; simpl; [|done].
    intros [= <-] [Hin|Hin]%elem_of_app.
    + destruct (for_each_elem _ _ _ _ Hl Hin) as (col2 & l' & _ & Hb & Hk).
      destruct (sum_ne_zero df col1) as [[|]|e] eqn:Hs; simpl in Hb; [| |done].
      * injection Hb as <-. apply list_elem_of_singleton in Hk.
        by exists col1, col2.
      * injection Hb as <-. by apply not_elem_of_nil in Hk.
    + by apply (IH more).
Qed.

(** C5, as the code has it. When every value of column [A] is zero, no
    ratio descriptor has [A] as its denominator: none is emitted for a
    pair in which [A] comes first. *)
Theorem zero_sum_column_not_denominator schema df A s kpis :
  getitem df A = Ok (OneSeries s) ->
  all_zero s = true ->
  generate_advanced_kpis py_format schema df = Ok kpis ->
  forall kpi, kpi ∈ kpis -> category kpi = "ratio" ->
    kpi_get kpi "denominator" <> Some (VStr A) /\
    forall B, columns_used kpi <> [A; B].
Proof.
  intros Hget Hzero Hgen kpi Hin Hcat.
  unfold generate_advanced_kpis in Hgen.
  destruct (if (2 <=? _)%nat then _ else _) as [ratios|e] eqn:Hr; simpl in Hgen; [|done].
  injection Hgen as <-.
  apply elem_of_app in Hin as [Hin|Hin].
  { apply list_elem_of_In, in_flat_map in Hin as (c & _ & Hin). simpl in Hin.
    destruct Hin as [<-|[<-|[<-|[]]]]; discriminate Hcat. }
  apply elem_of_app in Hin as [Hin|Hin].
  2:{ repeat case_match; try (by apply not_elem_of_nil in Hin);
        apply list_elem_of_fmap in Hin as (c & -> & _); discriminate Hcat. }
  assert (exists col1 col2, kpi = ratio_kpi col1 col2 /\ sum_ne_zero df col1 = Ok true)
    as (col1 & col2 & -> & Hsum).
  { destruct (2 <=? _)%nat; [by eapply ratio_kpis_elem|].
    injection Hr as <-. by apply not_elem_of_nil in Hin. }
  assert (col1 <> A) as Hne.
  { intros ->. unfold sum_ne_zero in Hsum. rewrite Hget in Hsum. simpl in Hsum.
    destruct (series_sum s) as [total|e] eqn:Ht; simpl in Hsum; [|done].
    apply (all_zero_sum _ _ Hzero) in Ht. congruence. }
  split.
  - cbv [kpi_get ratio_kpi extra]. simpl. intros [= ?]. done.
  - intros B [= ? ?]. done.
Qed.

End RatioProperties.

(** ** float64 rounding *)

Section Float64.

Local Open Scope Q_scope.


Lemma pow2_add a b : pow2 (a + b) == pow2 a * pow2 b.
Proof. apply Qpower_plus. discriminate. Qed.


Lemma pow2_lt a b : (a < b)%Z -> pow2 a < pow2 b.
Proof. intros H. apply Qpower_lt_compat_l; [exact H|reflexivity]. Qed.



Lemma pow2_cancel k : pow2 k * pow2 (- k) == 1.
Proof. rewrite <- pow2_add, Z.add_opp_diag_r. reflexivity. Qed.























End Float64.

(** ** Anomalies *)







Arguments np_gt : simpl never.
Arguments outlier_pct : simpl never.
Arguments iqr_outliers : simpl never.
Arguments zscore_anomalies : simpl never.

Section AnomalyProperties.

Context (py_format : Scalar -> string -> string).





End AnomalyProperties.
(** ** The model at work: witnesses, counterexamples, examples *)

(** C1 on the order table. *)
Lemma infer_schema_partition_witness :
  infer_schema iso_parser orders = Ok orders_schema /\
  (raw_columns orders_schema = columns orders /\
   concat (role_lists orders_schema) ≡ₚ columns orders /\
   (forall c, c ∈ columns orders ->
      length (List.filter (fun l => bool_decide (c ∈ l)) (role_lists orders_schema)) = 1) /\
   (NoDup (columns orders) -> NoDup (concat (role_lists orders_schema)))).
Proof.
  split; [reflexivity|].
  apply (infer_schema_partition iso_parser orders orders_schema). reflexivity.
Defined.

(** C7 on the column [update_day] of fruit names. *)
Lemma datetime_name_parse_failure_witness :
  let s := ObjectSeries [Some "apple"; Some "banana"; Some "cherry"] in
  getitem fruit "update_day" = Ok (OneSeries s) /\
  len s = nrows fruit /\
  detect_column_pattern "update_day" DATETIME_PATTERNS = true /\
  to_datetime iso_parser (head 100 (dropna s)) errors_raise = Raise parse_error /\
  (infer_column_type iso_parser fruit "update_day"
   = (if detect_column_pattern "update_day" ID_PATTERNS then Ok "id"
      else classify_by_storage iso_parser fruit "update_day") /\
   exists t, infer_column_type iso_parser fruit "update_day" = Ok t /\ t <> "datetime" /\
     (detect_column_pattern "update_day" ID_PATTERNS = false -> dtype s = object ->
      t = "categorical" \/ t = "text")).
Proof.
  intros s. repeat (split; [reflexivity|]).
  apply (datetime_name_parse_failure iso_parser fruit "update_day" s parse_error);
    reflexivity.
Defined.

(** The fruit names are classified as text. *)
Example fruit_is_text : infer_column_type iso_parser fruit "update_day" = Ok "text".
Proof. reflexivity. Qed.

(** C7 as stated fails on a label that also matches an identifier
    pattern: the fruit names under [date_key] do not parse, and the
    column is classified as identifier by its name, not by the
    storage-type rules, which give text. *)
Lemma datetime_name_identifier_wins :
  let s := ObjectSeries [Some "apple"; Some "banana"; Some "cherry"] in
  getitem fruit_key "date_key" = Ok (OneSeries s) /\
  detect_column_pattern "date_key" DATETIME_PATTERNS = true /\
  to_datetime iso_parser (head 100 (dropna s)) errors_raise = Raise parse_error /\
  infer_column_type iso_parser fruit_key "date_key" = Ok "id" /\
  classify_by_storage iso_parser fruit_key "date_key" = Ok "text" /\
  infer_column_type iso_parser fruit_key "date_key"
  <> classify_by_storage iso_parser fruit_key "date_key".
Proof. repeat split; try reflexivity. discriminate. Qed.

(** C8 on the integers 1 to 1000 under the label [x]. *)
Lemma integer_key_override_witness :
  let v := map Z.of_nat (seq 1 1000) in
  getitem thousand "x" = Ok (OneSeries (IntSeries int64 v)) /\
  is_signed_int (integer int64) = true /\
  detect_column_pattern "x" ID_PATTERNS = false /\
  detect_column_pattern "x" DATETIME_PATTERNS = false /\
  (95 # 100 < inject_Z (Z.of_nat (nunique (IntSeries int64 v)))
              / inject_Z (Z.of_nat (nrows thousand)))%Q /\
  infer_column_type iso_parser thousand "x" = Ok "id".
Proof.
  intros v. repeat (split; [vm_compute; reflexivity|]).
  apply (integer_key_override iso_parser thousand "x" int64 v);
    vm_compute; reflexivity.
Defined.

(** C8 as stated fails at exactly 95%: nineteen distinct values in twenty
    rows of [int64] storage stay numeric; and it fails for unsigned
    storage: twenty distinct [uint64] values stay numeric. *)
Lemma integer_key_override_not_at_95 :
  (getitem nineteen_of_twenty "x"
     = Ok (OneSeries (IntSeries int64 (1%Z :: map Z.of_nat (seq 1 19)))) /\
   detect_column_pattern "x" ID_PATTERNS = false /\
   detect_column_pattern "x" DATETIME_PATTERNS = false /\
   (95 # 100 <= inject_Z (Z.of_nat (nunique (IntSeries int64 (1%Z :: map Z.of_nat (seq 1 19)))))
                / inject_Z (Z.of_nat (nrows nineteen_of_twenty)))%Q /\
   infer_column_type iso_parser nineteen_of_twenty "x" = Ok "numeric") /\
  (getitem unsigned_keys "x"
     = Ok (OneSeries (IntSeries uint64 (map Z.of_nat (seq 1 20)))) /\
   (95 # 100 <= inject_Z (Z.of_nat (nunique (IntSeries uint64 (map Z.of_nat (seq 1 20)))))
                / inject_Z (Z.of_nat (nrows unsigned_keys)))%Q /\
   infer_column_type iso_parser unsigned_keys "x" = Ok "numeric").
Proof.
  repeat split; try reflexivity; vm_compute; discriminate.
Qed.

(** C10 on the all-null column [created]. *)
Lemma all_null_column_witness :
  let s := ObjectSeries [None; None; None] in
  getitem all_null "created" = Ok (OneSeries s) /\
  len (dropna s) = 0 /\
  ((detect_column_pattern "created" ID_PATTERNS = false ->
    detect_column_pattern "created" DATETIME_PATTERNS = true ->
    infer_column_type iso_parser all_null "created" = Ok "datetime") /\
   (detect_column_pattern "created" DATETIME_PATTERNS = false ->
    dtype s = object ->
    exists t, infer_column_type iso_parser all_null "created" = Ok t /\ t <> "datetime")).
Proof.
  intros s. repeat (split; [reflexivity|]).
  apply (all_null_column iso_parser all_null "created" s); reflexivity.
Defined.

(** C10 as stated fails on a label that also matches an identifier
    pattern: the all-null column [date_key] is classified as identifier. *)
Lemma all_null_identifier_name_wins :
  getitem all_null "date_key" = Ok (OneSeries (ObjectSeries [None; None; None])) /\
  len (dropna (ObjectSeries [None; None; None])) = 0 /\
  detect_column_pattern "date_key" DATETIME_PATTERNS = true /\
  infer_column_type iso_parser all_null "date_key" = Ok "id" /\
  infer_column_type iso_parser all_null "date_key" <> Ok "datetime".
Proof. repeat split; try reflexivity. discriminate. Qed.

(** The three all-null columns side by side. *)
Example all_null_columns_classified :
  map (infer_column_type iso_parser all_null) (columns all_null)
  = [Ok "datetime"; Ok "id"; Ok "categorical"].
Proof. reflexivity. Qed.

(** C3 on a table without rows: the unguarded division raises for the
    integer column; the guarded one does not for the object column. *)
Example no_rows_classified :
  map (infer_column_type iso_parser no_rows) (columns no_rows)
  = [ Raise (mkExc ZeroDivisionError "division by zero"); Ok "categorical";
      Ok "datetime"; Ok "numeric" ].
Proof. reflexivity. Qed.

(** With it [infer_schema] raises. *)
Example no_rows_schema_raises :
  infer_schema iso_parser no_rows = Raise (mkExc ZeroDivisionError "division by zero").
Proof. reflexivity. Qed.

(** C2 on two columns whose display labels coincide. *)
Lemma generate_kpis_first_wins_witness :
  generate_kpis iso_parser plain_format no_kpis no_kpis no_kpis no_kpis twins_schema twins
  = ([], Ok twins_kpis) /\
  exists emitted,
    all_kpis iso_parser plain_format no_kpis no_kpis no_kpis no_kpis twins_schema twins
    = ([], Ok emitted) /\
    NoDup (name <$> twins_kpis) /\
    sublist twins_kpis emitted /\
    forall n, List.find (has_name n) twins_kpis = List.find (has_name n) emitted.
Proof.
  split; [vm_compute; reflexivity|].
  apply (generate_kpis_first_wins iso_parser plain_format no_kpis no_kpis no_kpis no_kpis
           twins_schema twins [] twins_kpis).
  vm_compute; reflexivity.
Defined.

(** Two descriptors are emitted under the name [Total Unit Price] ... *)
Example twins_emitted_names :
  (fun r => match r with (_, Ok l) => List.filter (has_name "Total Unit Price") l | _ => [] end)
    (all_kpis iso_parser plain_format no_kpis no_kpis no_kpis no_kpis twins_schema twins)
  = [ mkKpi "Total Unit Price" "Sum of unit_price across all records." "SUM(unit_price)"
        ["unit_price"] "aggregation" "sum" "easy" "SUM" (Some "unit_price") [];
      mkKpi "Total Unit Price" "Sum of unit price across all records." "SUM(unit price)"
        ["unit price"] "aggregation" "sum" "easy" "SUM" (Some "unit price") [] ].
Proof. vm_compute. reflexivity. Qed.

(** ... and the first one is kept. *)
Example twins_kept :
  List.filter (has_name "Total Unit Price") twins_kpis
  = [ mkKpi "Total Unit Price" "Sum of unit_price across all records." "SUM(unit_price)"
        ["unit_price"] "aggregation" "sum" "easy" "SUM" (Some "unit_price") [] ].
Proof. vm_compute. reflexivity. Qed.

(** C9 on a schema that lists a column the table lacks: the anomaly rule
    raises [KeyError]. *)
Lemma creative_failure_contained_witness :
  creative_kpis plain_format no_kpis no_kpis no_kpis no_kpis orders stale_schema
  = Raise (mkExc KeyError "'missing'") /\
  generate_conversion_kpis plain_format stale_schema orders = Ok [] /\
  generate_advanced_kpis plain_format stale_schema orders = Ok stale_advanced /\
  generate_kpis iso_parser plain_format no_kpis no_kpis no_kpis no_kpis stale_schema orders
  = ( ["Warning: Could not generate creative KPIs: " +:+ exc_args (mkExc KeyError "'missing'")],
      Ok (remove_duplicates
            (generate_aggregation_kpis stale_schema orders
             ++ generate_time_series_kpis iso_parser stale_schema orders
             ++ generate_category_breakdown_kpis stale_schema orders
             ++ [] ++ stale_advanced)) ).
Proof.
  repeat (split; [vm_compute; reflexivity|]).
  apply (creative_failure_contained iso_parser plain_format no_kpis no_kpis no_kpis no_kpis
           stale_schema orders (mkExc KeyError "'missing'") [] stale_advanced);
    vm_compute; reflexivity.
Defined.

(** The warning printed and the names returned in that run. *)
Example stale_run_names :
  (fun r => match r with (out, Ok l) => (out, map name l) | (out, _) => (out, []) end)
    (generate_kpis iso_parser plain_format no_kpis no_kpis no_kpis no_kpis stale_schema orders)
  = ( ["Warning: Could not generate creative KPIs: 'missing'"],
      [ "Total Missing"; "Average Missing"; "Minimum Missing"; "Maximum Missing";
        "Total Records"; "Median Missing"; "25th Percentile of Missing";
        "75th Percentile of Missing" ] ).
Proof. vm_compute. reflexivity. Qed.

(** C4, as the code has it, on four dates of four years. *)
Lemma four_yearly_dates_day_granularity_witness :
  datetime_columns yearly_schema = ["recorded"] /\
  Py.contains "year" (Py.lower "recorded") = false /\
  to_datetime_sample iso_parser yearly "recorded" errors_coerce = Ok (map Some yearly_dates) /\
  omap id (map Some yearly_dates) = yearly_dates /\
  NoDup (ts_year <$> yearly_dates) /\
  (time_granularity iso_parser yearly "recorded" = "day" /\
   generate_time_series_kpis iso_parser yearly_schema yearly
   = flat_map (fun num_col => [ sum_per_day num_col "recorded";
                                sum_per_month num_col "recorded" "" ])
              (numeric_columns yearly_schema)
     ++ map (fun id_col => new_per_day id_col "recorded") (take 1 (id_columns yearly_schema)) /\
   forall kpi, kpi ∈ generate_time_series_kpis iso_parser yearly_schema yearly ->
     subcategory kpi = "daily" \/ subcategory kpi = "monthly").
Proof.
  repeat (split; [reflexivity|]).
  assert (Hyears : NoDup (ts_year <$> yearly_dates)).
  { apply (bool_decide_unpack _). reflexivity. }
  split; [exact Hyears|].
  apply (four_yearly_dates_day_granularity iso_parser yearly_schema yearly "recorded" []
           (map Some yearly_dates)
           (mkTimestamp 2020 1 1 0) (mkTimestamp 2021 1 1 0)
           (mkTimestamp 2022 1 1 0) (mkTimestamp 2023 1 1 0));
    try reflexivity. exact Hyears.
Defined.

(** C4 as stated fails: on four dates, one per calendar year, the rule
    does not settle on year granularity and emits no per-year
    descriptor. *)
Lemma four_yearly_dates_not_year_granularity :
  nrows yearly = 4 /\
  to_datetime_sample iso_parser yearly "recorded" errors_coerce = Ok (map Some yearly_dates) /\
  NoDup (ts_year <$> yearly_dates) /\
  time_granularity iso_parser yearly "recorded" <> "year" /\
  map name (generate_time_series_kpis iso_parser yearly_schema yearly)
  = ["Amount per Day"; "Amount per Month"] /\
  ~ exists kpi, kpi ∈ generate_time_series_kpis iso_parser yearly_schema yearly /\
                subcategory kpi = "yearly".
Proof.
  split; [reflexivity|]. split; [reflexivity|].
  split; [apply (bool_decide_unpack _); reflexivity|].
  split; [vm_compute; discriminate|]. split; [reflexivity|].
  intros (kpi & Hin & Hsub). vm_compute in Hin.
  apply elem_of_cons in Hin as [->|Hin]; [discriminate Hsub|].
  apply list_elem_of_singleton in Hin as ->. discriminate Hsub.
Qed.

(** C5, as the code has it, with the all-zero column first. *)
Lemma zero_sum_column_not_denominator_witness :
  getitem zero_second "a" = Ok (OneSeries (IntSeries int64 [0; 0; 0]%Z)) /\
  all_zero (IntSeries int64 [0; 0; 0]%Z) = true /\
  generate_advanced_kpis plain_format zero_first_schema zero_second = Ok zero_first_kpis /\
  forall kpi, kpi ∈ zero_first_kpis -> category kpi = "ratio" ->
    kpi_get kpi "denominator" <> Some (VStr "a") /\
    forall B, columns_used kpi <> ["a"; B].
Proof.
  repeat (split; [vm_compute; reflexivity|]).
  apply (zero_sum_column_not_denominator plain_format zero_first_schema zero_second "a"
           (IntSeries int64 [0; 0; 0]%Z) zero_first_kpis);
    vm_compute; reflexivity.
Defined.

(** No ratio is emitted then. *)
Example zero_first_names :
  map name zero_first_kpis
  = [ "Median A"; "25th Percentile of A"; "75th Percentile of A";
      "Median B"; "25th Percentile of B"; "75th Percentile of B" ].
Proof. reflexivity. Qed.

(** C5 as stated fails when the all-zero column comes second: the ratio
    of [a] to [b] is emitted. *)
Lemma zero_numerator_ratio_emitted :
  getitem zero_second "a" = Ok (OneSeries (IntSeries int64 [0; 0; 0]%Z)) /\
  all_zero (IntSeries int64 [0; 0; 0]%Z) = true /\
  numeric_columns zero_second_schema = ["b"; "a"] /\
  exists kpis,
    generate_advanced_kpis plain_format zero_second_schema zero_second = Ok kpis /\
    ratio_kpi "b" "a" ∈ kpis /\
    name (ratio_kpi "b" "a") = "A to B Ratio" /\
    category (ratio_kpi "b" "a") = "ratio" /\
    columns_used (ratio_kpi "b" "a") = ["b"; "a"].
Proof.
  repeat (split; [reflexivity|]).
  eexists. split; [vm_compute; reflexivity|].
  split; [|repeat split; reflexivity].
  apply list_elem_of_In. do 6 right. left. reflexivity.
Qed.


(** A share of exactly 5.0% (50 of 1000) emits no outlier descriptor:
    [50 / 1000 * 100] is the float64 5.0. *)
Example exactly_five_percent_is_silent :
  fence_outlier_share (nrows fifty_off) (float64_values fifty_off "amount") = 50 # 1000 /\
  outlier_pct fifty_off (repeat (Some 0%Q) 950 ++ repeat (Some 1%Q) 50) = Fin 5 /\
  (fun r => match r with Ok l => map name l | Raise _ => [] end)
    (detect_anomalies_kpis plain_format fifty_off amount_schema)
  = ["Anomaly Rate in Amount"].
Proof. repeat split; vm_compute; reflexivity. Qed.

(** A share of 5.1% (51 of 1000) emits it. *)
Example above_five_percent_is_reported :
  fence_outlier_share (nrows fifty_one_off) (float64_values fifty_one_off "amount")
  = 51 # 1000 /\
  (fun r => match r with Ok l => map name l | Raise _ => [] end)
    (detect_anomalies_kpis plain_format fifty_one_off amount_schema)
  = ["Anomaly Rate in Amount"; "Outlier Detection in Amount"].
Proof. repeat split; vm_compute; reflexivity. Qed.

(** The fences are float64 numbers: on five 0.1, eleven 1.3 and one 3.1
    the upper fence is 3.0999999999999996, below the float64 3.1, which
    is then the one outlier of 17 rows (5.9%). *)
Example fence_rounding :
  upper_fence (float64_values near_fence "amount")
  = Fin (1745144855606067 # 562949953421312) /\
  as_float64 (31 # 10) = 6980579422424269 # 2251799813685248 /\
  fence_outlier_share (nrows near_fence) (float64_values near_fence "amount") = 1 # 17 /\
  (fun r => match r with Ok l => map name l | Raise _ => [] end)
    (detect_anomalies_kpis plain_format near_fence amount_schema)
  = ["Outlier Detection in Amount"].
Proof. repeat split; vm_compute; reflexivity. Qed.

(** The order table end to end: its schema, then its catalogue. *)
Example orders_catalogue :
  infer_schema iso_parser orders = Ok orders_schema /\
  (fun r => match r with (out, Ok l) => (out, map name l) | (out, Raise _) => (out, []) end)
    (generate_kpis iso_parser plain_format no_kpis no_kpis no_kpis no_kpis
       orders_schema orders)
  = ( [],
      [ "Total Amount"; "Average Amount"; "Minimum Amount"; "Maximum Amount";
        "Total Count of Order Id"; "Total Records";
        "Amount per Day"; "Amount per Month"; "New Order Id per Day";
        "Amount by Region"; "Average Amount by Region"; "Count by Region";
        "Median Amount"; "25th Percentile of Amount"; "75th Percentile of Amount";
        "Amount Growth Rate" ] ).
Proof. split; vm_compute; reflexivity. Qed.

(** The anomaly rule over a schema: the z-score descriptor alone at 5.0%. *)
Example anomalies_at_five_percent :
  (fun r => match r with Ok l => map subcategory l | Raise _ => [] end)
    (detect_anomalies_kpis plain_format fifty_off amount_schema)
  = ["zscore_anomalies"].
Proof. vm_compute. reflexivity. Qed.
